(** * Checkpointed ingestion of gist submissions: a shallow embedding

    The Python sources embedded here are
      - utils/state_manager.py     (the checkpoint store),
      - utils/basescan.py          (the event source),
      - utils/gist_validator.py    (the claim validator),
      - utils/contract.py          (the attestation writer),
      - process_attestations.py    (the orchestrator).

    Python values coming from JSON are [json]; an operation that may raise
    returns [exn A].  What lies outside the program is given to it: the
    library routines of Python, web3, eth_account and urllib are the
    fields of [Lib]; the state file, the chain head and the log-query API
    a run starts from are the fields of [Sources]; the clock, the gist
    host, the deployment file and the chain met while one event is
    handled are the fields of [Env]. *)

From Stdlib Require Import ZArith Bool List Ascii String HexString Lia.
Import ListNotations.
Local Open Scope string_scope.
Local Open Scope Z_scope.

Set Implicit Arguments.
Set Warnings "-register-all".

(** ** Exceptions *)

(** [Raised] stands for any Python [Exception]: every handler of the
    sources is [except Exception]. *)
Inductive exn (A : Type) : Type :=
| Ret (a : A)
| Raised.
Arguments Ret {A} a.
Arguments Raised {A}.

Definition bind {A B} (m : exn A) (k : A -> exn B) : exn B :=
  match m with
  | Ret a => k a
  | Raised => Raised
  end.

(** [try: m  except Exception: h] *)
Definition catch {A} (m : exn A) (h : A) : A :=
  match m with
  | Ret a => a
  | Raised => h
  end.

Notation "x <- m ;; k" := (bind m (fun x => k))
  (at level 61, m at next level, right associativity).

Definition of_option {A} (o : option A) : exn A :=
  match o with
  | Some a => Ret a
  | None => Raised
  end.

(** ** Strings, as Python uses them in the sources *)

Module Str.

(** [c.lower()] on one ASCII character. *)
Definition lower_ascii (c : ascii) : ascii :=
  let n := nat_of_ascii c in
  if (Nat.leb 65 n && Nat.leb n 90)%bool then ascii_of_nat (n + 32) else c.

(** [s.lower()] *)
Fixpoint lower (s : string) : string :=
  match s with
  | EmptyString => EmptyString
  | String c r => String (lower_ascii c) (lower r)
  end.

(** [s.startswith(p)] *)
Definition startswith (p s : string) : bool := String.prefix p s.

Fixpoint rev_acc (s acc : string) : string :=
  match s with
  | EmptyString => acc
  | String c r => rev_acc r (String c acc)
  end.

Definition rev (s : string) : string := rev_acc s EmptyString.

(** [s.endswith(p)] *)
Definition endswith (p s : string) : bool := String.prefix (rev p) (rev s).

(** [p in s] *)
Fixpoint contains (p s : string) : bool :=
  (String.prefix p s ||
   match s with
   | EmptyString => false
   | String _ r => contains p r
   end)%bool.

(** [s[n:]] for [0 <= n] *)
Fixpoint drop (n : nat) (s : string) : string :=
  match n, s with
  | O, _ => s
  | S n', String _ r => drop n' r
  | S _, EmptyString => EmptyString
  end.

(** [s[-n:]] for [0 < n] *)
Definition last_n (n : nat) (s : string) : string :=
  drop (String.length s - n) s.

Fixpoint lstrip (c : ascii) (s : string) : string :=
  match s with
  | EmptyString => EmptyString
  | String d r => if Ascii.eqb c d then lstrip c r else s
  end.

(** [s.strip(c)] for a one-character [c] *)
Definition strip (c : ascii) (s : string) : string :=
  rev (lstrip c (rev (lstrip c s))).

Fixpoint split_acc (c : ascii) (s : string) (cur : string) : list string :=
  match s with
  | EmptyString => [rev cur]
  | String d r =>
      if Ascii.eqb c d then rev cur :: split_acc c r EmptyString
      else split_acc c r (String d cur)
  end.

(** [s.split(c)] for a one-character [c] *)
Definition split (c : ascii) (s : string) : list string :=
  split_acc c s EmptyString.

Definition is_hex_digit (c : ascii) : bool :=
  let n := nat_of_ascii c in
  ((Nat.leb 48 n && Nat.leb n 57) ||
   (Nat.leb 65 n && Nat.leb n 70) ||
   (Nat.leb 97 n && Nat.leb n 102))%bool.

Fixpoint all_hex (s : string) : bool :=
  match s with
  | EmptyString => true
  | String c r => (is_hex_digit c && all_hex r)%bool
  end.

(** [re.match(r'^[a-fA-F0-9]+$', s)]: one hex digit or more; Python's
    [$] also matches just before one final newline. *)
Definition match_hex (s : string) : bool :=
  let body :=
    if endswith (String "010"%char EmptyString) s
    then rev (drop 1 (rev s)) else s in
  (negb (String.eqb body "") && all_hex body)%bool.

Definition hex_digit (n : nat) : ascii :=
  if Nat.ltb n 10 then ascii_of_nat (48 + n) else ascii_of_nat (87 + n).

(** [s.encode().hex()] *)
Fixpoint encode_hex (s : string) : string :=
  match s with
  | EmptyString => EmptyString
  | String c r =>
      let n := nat_of_ascii c in
      String (hex_digit (Nat.div n 16))
        (String (hex_digit (Nat.modulo n 16)) (encode_hex r))
  end.

End Str.

(** ** JSON values and Python dictionaries *)

(** What [json.load] yields, and what the program keeps in its dicts.
    [JNull] is Python's [None].  JSON numbers with a fraction part are
    outside this model. *)
Inductive json : Type :=
| JNull
| JBool (b : bool)
| JNum (n : Z)
| JStr (s : string)
| JList (l : list json)
| JObj (d : list (string * json)).

(** A dict with string keys, with its insertion order. *)
Module Dict.

Section Values.

Variable V : Type.

(** [k in d] / [d[k]] *)
Fixpoint lookup (k : string) (d : list (string * V)) : option V :=
  match d with
  | [] => None
  | (k', v) :: r => if String.eqb k k' then Some v else lookup k r
  end.

(** [d.get(k, dflt)] *)
Definition get (k : string) (dflt : V) (d : list (string * V)) : V :=
  match lookup k d with
  | Some v => v
  | None => dflt
  end.

(** [d[k]], a [KeyError] when absent *)
Definition item (k : string) (d : list (string * V)) : exn V :=
  of_option (lookup k d).

(** [d[k] = v]: in place when the key is there, appended otherwise. *)
Fixpoint set (k : string) (v : V) (d : list (string * V))
  : list (string * V) :=
  match d with
  | [] => [(k, v)]
  | (k', v') :: r =>
      if String.eqb k k' then (k', v) :: r else (k', v') :: set k v r
  end.

End Values.

End Dict.

Definition dict := list (string * json).

(** Python truthiness: [if x] / [not x]. *)
Definition truthy (j : json) : bool :=
  match j with
  | JNull => false
  | JBool b => b
  | JNum n => negb (n =? 0)
  | JStr s => negb (String.eqb s "")
  | JList l => match l with [] => false | _ => true end
  | JObj d => match d with [] => false | _ => true end
  end.

(** [x == "literal"] *)
Definition eq_str (j : json) (s : string) : bool :=
  match j with
  | JStr t => String.eqb t s
  | _ => false
  end.

(** [x.get(k, dflt)]: only a dict has [get]. *)
Definition py_get (k : string) (dflt : json) (j : json) : exn json :=
  match j with
  | JObj d => Ret (Dict.get k dflt d)
  | _ => Raised
  end.

(** [x[k]] with a string key: a dict answers, anything else raises. *)
Definition py_item (k : string) (j : json) : exn json :=
  match j with
  | JObj d => Dict.item k d
  | _ => Raised
  end.

(** [hex(x)]: integers only ([bool] is an [int] in Python). *)
Definition py_hex (j : json) : exn string :=
  match j with
  | JNum n => Ret (HexString.of_Z n)
  | JBool b => Ret (if b then "0x1" else "0x0")
  | _ => Raised
  end.

(** ** utils/state_manager.py *)

(** The state file [state/<network>_state.json] as the store sees it:
    missing, present but not parseable by [json.load] (garbage, or a
    file opened for writing whose dump has not completed), or holding a
    JSON value. *)
Inductive file : Type :=
| Absent
| Illegible
| Holds (j : json).

(** What can go wrong while the file is rewritten. *)
Inductive fault : Type :=
| NoFault
| OpenFails      (* [open(path, 'w')] raises: the file is untouched *)
| DumpFails.     (* [json.dump] raises after the file was truncated *)

Module StateManager.

Section WithNetwork.

Variable network : string.

(** [_get_default_starting_block] *)
Definition defaults : list (string * Z) :=
  [("sepolia", 7000000); ("mainnet", 10000000)].

Definition _get_default_starting_block : Z :=
  Dict.get network 0 defaults.

(** [get_last_processed_block]: the stored value comes back as it
    is in the file, whatever its JSON type. *)
Definition get_last_processed_block (f : file) : json :=
  catch
    (match f with
     | Absent => Ret (JNum _get_default_starting_block)
     | Illegible => Raised
     | Holds data =>
         py_get "last_processed_block"
           (JNum _get_default_starting_block) data
     end)
    (JNum _get_default_starting_block).

(** [data["last_processed_block"] = block_number;
     data["network"] = self.network] on what [json.load] returned:
    item assignment with a string key needs a dict. *)
Definition stamp (block_number : Z) (data : json) : exn dict :=
  match data with
  | JObj d =>
      Ret (Dict.set "network" (JStr network)
             (Dict.set "last_processed_block" (JNum block_number) d))
  | _ => Raised
  end.

(** The record [update_last_processed_block] is about to write. *)
Definition load_and_stamp (block_number : Z) (f : file) : exn dict :=
  data <- match f with
          | Absent => Ret (JObj [])
          | Illegible => Raised
          | Holds j => Ret j
          end ;;
  stamp block_number data.

(** [with open(self.state_file, 'w') as f: json.dump(data, f, indent=2)]:
    the contents of the file at each point of the rewrite.  Opening
    with mode ['w'] truncates the file in place; the dump then fills
    it; no proper prefix of the dumped text is a JSON document. *)
Definition rewrite (data : dict) (f : file) (ft : fault) : list file :=
  match ft with
  | OpenFails => [f]
  | DumpFails => [f; Illegible]
  | NoFault => [f; Illegible; Holds (JObj data)]
  end.

(** The states the file goes through during
    [update_last_processed_block], first to last. *)
Definition update_trajectory (block_number : Z) (f : file) (ft : fault)
  : list file :=
  match load_and_stamp block_number f with
  | Ret data => rewrite data f ft
  | Raised => [f]
  end.

(** [update_last_processed_block]: the file it leaves, and whether it
    returned or re-raised. *)
Definition update_last_processed_block
  (block_number : Z) (f : file) (ft : fault) : file * exn unit :=
  (last (update_trajectory block_number f ft) f,
   data <- load_and_stamp block_number f ;;
   match ft with
   | NoFault => Ret tt
   | _ => Raised
   end).

End WithNetwork.

End StateManager.

(** ** Library routines *)

(** Routines of Python and of the packages the program imports, taken as
    they are: deterministic functions of their arguments. *)
Record Lib : Type := {
  (** [int(s, base)] on a [str] *)
  py_int : Z -> string -> exn Z;
  (** [str(x)] for a value that is not a [str] *)
  py_repr : json -> string;
  (** [urlparse(s)]: its [netloc] and [path] *)
  urlparse : string -> exn (string * string);
  (** [json.loads(s)] *)
  json_loads : string -> exn json;
  (** [Web3.is_address(x)] *)
  is_address : json -> bool;
  (** [Web3().eth.account.recover_message(encode_defunct(text=m),
      signature=s)] *)
  recover_message : json -> json -> exn string;
  (** [Account.from_key(k)] accepts the key *)
  valid_key : string -> bool
}.

(** [str(x)] *)
Definition py_str (L : Lib) (j : json) : string :=
  match j with
  | JStr s => s
  | _ => py_repr L j
  end.

(** [int(x)] *)
Definition py_int_of (L : Lib) (j : json) : exn Z :=
  match j with
  | JNum n => Ret n
  | JBool b => Ret (if b then 1 else 0)
  | JStr s => py_int L 10 s
  | _ => Raised
  end.

(** [for x in j]: a list gives its elements, a [str] its characters, a
    dict its keys; nothing else is iterable. *)
Definition py_iter (j : json) : exn (list json) :=
  match j with
  | JList l => Ret l
  | JStr s => Ret (map (fun c => JStr (String c EmptyString)) (list_ascii_of_string s))
  | JObj d => Ret (map (fun kv => JStr (fst kv)) d)
  | _ => Raised
  end.

(** ** utils/basescan.py *)

(** One HTTP request of the log query: the endpoint and the parameters. *)
Record request : Type := {
  req_url : string;
  req_params : list (string * string)
}.

Module Basescan.

Definition endpoints : list (string * string) :=
  [("mainnet", "https://api.basescan.org/api");
   ("sepolia", "https://api-sepolia.basescan.org/api")].

(** The table of [_get_contract_address] in the source: both entries
    are the placeholder. *)
Definition placeholder : string :=
  "0x0000000000000000000000000000000000000000".

Definition source_addresses : list (string * string) :=
  [("sepolia", placeholder); ("mainnet", placeholder)].

(** [__init__]: the endpoint, or [ValueError] for an unsupported
    network. *)
Definition init (network : string) : exn string :=
  match Dict.lookup network endpoints with
  | Some u => if String.eqb u "" then Raised else Ret u
  | None => Raised
  end.

Section Client.

Variable L : Lib.

(** The deployed-contract table of [_get_contract_address]. *)
Variable addresses : list (string * string).

(** The log-query API: what the [attempt]-th [requests.get] of a
    request gives after [raise_for_status()] and [.json()]. *)
Variable http : request -> nat -> exn json.

(** The fields [__init__] has set. *)
Variable api_key : string.
Variable network : string.
Variable base_url : string.

(** [_get_contract_address] *)
Definition _get_contract_address : exn string :=
  match Dict.lookup network addresses with
  | Some a =>
      if (String.eqb a "" || String.eqb a placeholder)%bool
      then Raised else Ret a
  | None => Raised
  end.

(** The rate-limit test of [_make_request]. *)
Definition rate_limited (data : json) : exn bool :=
  m <- py_get "message" JNull data ;;
  if eq_str m "NOTOK" then
    r <- py_get "result" (JStr "") data ;;
    Ret (Str.contains "rate limit" (Str.lower (py_str L r)))
  else Ret false.

(** The loop [for attempt in range(3)] of [_make_request], from
    iteration [attempt] with [left] iterations to go; the second
    component lists the requests sent. *)
Fixpoint attempts (rq : request) (left attempt : nat)
  : exn json * list request :=
  match left with
  | O => (Raised, [])
  | S left' =>
      let again :=
        let (r, sent) := attempts rq left' (S attempt) in
        (r, rq :: sent) in
      match (data <- http rq attempt ;;
             rl <- rate_limited data ;;
             Ret (data, rl)) with
      | Ret (data, true) =>
          if Nat.ltb attempt 2 then again else (Ret data, [rq])
      | Ret (data, false) => (Ret data, [rq])
      | Raised =>
          if Nat.ltb attempt 2 then again else (Raised, [rq])
      end
  end.

(** [_make_request] *)
Definition _make_request (params : list (string * string))
  : exn json * list request :=
  attempts {| req_url := base_url; req_params := params |} 3 0.

(** [log["topics"][1]] *)
Definition topic1 (topics : json) : exn json :=
  match topics with
  | JList l => of_option (nth_error l 1)
  | JStr s =>
      match Str.drop 1 s with
      | String c _ => Ret (JStr (String c EmptyString))
      | EmptyString => Raised
      end
  | _ => Raised
  end.

(** [_parse_gist_submitted_event]: the event dict, or [None]. *)
Definition _parse_gist_submitted_event (log : json) : option dict :=
  catch
    (topics <- py_item "topics" log ;;
     t1 <- topic1 topics ;;
     submitter <- match t1 with
                  | JStr t => Ret ("0x" ++ Str.last_n 40 t)
                  | _ => Raised
                  end ;;
     data <- py_item "data" log ;;
     _ <- match data with
          | JStr d => Ret tt      (* data = log["data"][2:], not used *)
          | JList _ => Ret tt
          | _ => Raised
          end ;;
     ts <- py_item "timeStamp" log ;;
     timestamp <- match ts with
                  | JStr t =>
                      if Str.startswith "0x" t
                      then py_int L 16 t else py_int L 10 t
                  | _ => Raised
                  end ;;
     tx <- py_item "transactionHash" log ;;
     bn <- py_item "blockNumber" log ;;
     blockNumber <- match bn with
                    | JStr b => py_int L 16 b
                    | _ => Raised
                    end ;;
     Ret (Some [("submitter", JStr submitter);
                ("gist_url", JStr "placeholder");
                ("timestamp", JNum timestamp);
                ("transactionHash", tx);
                ("blockNumber", JNum blockNumber)]))
    None.

(** The loop over [response.get("result", [])]: a log that does not
    parse is left out. *)
Fixpoint parse_logs (logs : list json) : list dict :=
  match logs with
  | [] => []
  | log :: r =>
      match _parse_gist_submitted_event log with
      | Some event => event :: parse_logs r
      | None => parse_logs r
      end
  end.

Definition topic0 : string :=
  "0x" ++ Str.encode_hex "GistSubmitted(address,string,uint256)".

(** [get_gist_submission_events]: the events, and the HTTP requests
    sent.  Every exception ends in the empty list. *)
Definition get_gist_submission_events
  (from_block : json) (to_block : Z) (contract_address : option string)
  : list dict * list request :=
  match (address <- match contract_address with
                    | Some a => if String.eqb a ""
                                then _get_contract_address else Ret a
                    | None => _get_contract_address
                    end ;;
         fromBlock <- py_hex from_block ;;
         Ret [("module", "logs");
              ("action", "getLogs");
              ("address", address);
              ("topic0", topic0);
              ("fromBlock", fromBlock);
              ("toBlock", HexString.of_Z to_block);
              ("apikey", api_key)]) with
  | Raised => ([], [])
  | Ret params =>
      let (response, sent) := _make_request params in
      (catch
         (response <- response ;;
          status <- py_get "status" JNull response ;;
          if eq_str status "1" then
            result <- py_get "result" (JList []) response ;;
            logs <- py_iter result ;;
            Ret (parse_logs logs)
          else Ret [])
         [],
       sent)
  end.

End Client.

End Basescan.

(** ** The world of one event *)

(** The arguments of one [createAttestation(...)]. *)
Record call : Type := {
  ethAddress : json;
  githubUsername : json;
  gistUrl : json
}.

(** How far a [createAttestation] transaction gets. *)
Inductive tx_outcome : Type :=
| NoContract            (* [w3.eth.contract(...)] raises *)
| NotSent               (* building, signing or sending raises *)
| NotConfirmed          (* sent; [wait_for_transaction_receipt] raises *)
| Receipt (status : Z). (* sent and confirmed, with [receipt.status] *)

(** What the program finds outside while it handles one event. *)
Record Env : Type := {
  (** [int(time.time())] *)
  time_now : Z;
  (** [github.get_gist(id).files], each with its [content] *)
  github_get_gist : string -> exn (list (string * option string));
  (** the public API: [requests.get(...)], [raise_for_status()], [.json()] *)
  public_get_gist : string -> exn json;
  (** [deployments/<network>.json] *)
  deployment : file;
  (** the chain, for a registry address and a call *)
  chain : json -> call -> tx_outcome
}.

(** What a run does to the outside. *)
Inductive action : Type :=
| Query (from_block : json) (to_block : Z) (sent : list request)
| Invoke (c : call)
| Send (c : call)
| SetBlock (block_number : Z).

(** ** utils/gist_validator.py *)

Module GistValidator.

Section Validator.

Variable L : Lib.
Variable E : Env.

(** [self.github] is a client (and not [None]). *)
Variable github : bool.

(** [_extract_gist_id]; a [gist_url] that is not a [str] ends in
    [None] too, by the [netloc] test or by the handler. *)
Definition _extract_gist_id (gist_url : json) : option string :=
  match gist_url with
  | JStr u =>
      catch
        (parsed <- urlparse L u ;;
         let (netloc, path) := parsed in
         if negb (String.eqb netloc "gist.github.com") then Ret None
         else
           let path_parts := Str.split "/"%char (Str.strip "/"%char path) in
           if (Nat.ltb (List.length path_parts) 2) then Ret None
           else
             let gist_id := nth 1 path_parts "" in
             if negb (Str.match_hex gist_id) then Ret None
             else Ret (Some gist_id))
        None
  | _ => None
  end.

(** The first loop of [_fetch_gist_content], over [gist.files]. *)
Fixpoint first_file (files : list (string * option string))
  : exn (option json) :=
  match files with
  | [] => Ret None
  | (filename, content) :: r =>
      if (Str.endswith ".json" filename
          || Str.contains "verification" (Str.lower filename))%bool
      then c <- of_option content ;;
           v <- json_loads L c ;;
           Ret (Some v)
      else first_file r
  end.

(** The second loop, over the [files] of the public API's answer. *)
Fixpoint first_public_file (files : dict) : exn json :=
  match files with
  | [] => Ret JNull
  | (filename, file_info) :: r =>
      if (Str.endswith ".json" filename
          || Str.contains "verification" (Str.lower filename)
          || Str.contains "attestation" (Str.lower filename))%bool
      then content <- py_get "content" (JStr "") file_info ;;
           if truthy content then
             match content with
             | JStr c => json_loads L c
             | _ => Raised
             end
           else first_public_file r
      else first_public_file r
  end.

(** [_fetch_gist_content]; [JNull] is [None]. *)
Definition _fetch_gist_content (gist_id : string) : json :=
  catch
    (found <- (if github then
                 files <- github_get_gist E gist_id ;;
                 first_file files
               else Ret None) ;;
     match found with
     | Some v => Ret v
     | None =>
         gist_data <- public_get_gist E gist_id ;;
         files <- py_get "files" (JObj []) gist_data ;;
         match files with
         | JObj d => first_public_file d
         | _ => Raised
         end
     end)
    JNull.

(** [field in data] *)
Definition py_in (field : string) (data : json) : exn bool :=
  match data with
  | JObj d => Ret (match Dict.lookup field d with
                   | Some _ => true | None => false end)
  | JList l => Ret (existsb (fun x => eq_str x field) l)
  | JStr s => Ret (Str.contains field s)
  | _ => Raised
  end.

Definition required_fields : list string :=
  ["message"; "signature"; "address"; "github_username"; "timestamp"].

(** The loop of [_validate_json_structure]: [Ret false] is its
    [return False], [Ret true] the end of the loop. *)
Fixpoint check_fields (fields : list string) (data : json) : exn bool :=
  match fields with
  | [] => Ret true
  | field :: r =>
      present <- py_in field data ;;
      if negb present then Ret false
      else
        v <- py_item field data ;;
        if negb (truthy v) then Ret false
        else check_fields r data
  end.

(** [_validate_json_structure]; it has no handler of its own. *)
Definition _validate_json_structure (data : json) : exn bool :=
  ok <- check_fields required_fields data ;;
  if negb ok then Ret false
  else
    address <- py_item "address" data ;;
    if negb (is_address L address) then Ret false
    else
      signature <- py_item "signature" data ;;
      match signature with
      | JStr sg =>
          if (negb (Str.startswith "0x" sg)
              || negb (Nat.eqb (String.length sg) 132))%bool
          then Ret false else Ret true
      | _ => Raised
      end.

(** [_validate_signature] *)
Definition _validate_signature (data : json) : bool :=
  catch
    (message <- py_item "message" data ;;
     signature <- py_item "signature" data ;;
     expected_address <- py_item "address" data ;;
     recovered_address <- recover_message L message signature ;;
     match expected_address with
     | JStr expected =>
         if negb (String.eqb (Str.lower recovered_address)
                             (Str.lower expected))
         then Ret false else Ret true
     | _ => Raised
     end)
    false.

(** [_validate_timestamp] *)
Definition _validate_timestamp (data : json) (max_age_hours : Z) : bool :=
  catch
    (ts <- py_item "timestamp" data ;;
     timestamp <- py_int_of L ts ;;
     let current_time := time_now E in
     let max_age_seconds := max_age_hours * 3600 in
     if current_time - timestamp >? max_age_seconds then Ret false
     else if timestamp >? current_time + 300 then Ret false
     else Ret true)
    false.

(** [_recover_address_from_signature] *)
Definition _recover_address_from_signature (data : json) : option string :=
  catch
    (message <- py_item "message" data ;;
     signature <- py_item "signature" data ;;
     recovered_address <- recover_message L message signature ;;
     Ret (Some recovered_address))
    None.

(** [fetch_and_validate_gist]; [JNull] is [None]. *)
Definition fetch_and_validate_gist (gist_url : json) : json :=
  catch
    (match _extract_gist_id gist_url with
     | None => Ret JNull
     | Some gist_id =>
         let gist_data := _fetch_gist_content gist_id in
         if negb (truthy gist_data) then Ret JNull
         else
           ok <- _validate_json_structure gist_data ;;
           if negb ok then Ret JNull
           else if negb (_validate_signature gist_data) then Ret JNull
           else if negb (_validate_timestamp gist_data 24) then Ret JNull
           else Ret gist_data
     end)
    JNull.

(** [verify_signature_matches_address], as the truth value the caller
    tests. *)
Definition verify_signature_matches_address
  (gist_data : json) (submitter_address : json) : bool :=
  catch
    (match _recover_address_from_signature gist_data with
     | None => Ret false
     | Some recovered_address =>
         if String.eqb recovered_address "" then Ret false
         else
           match submitter_address with
           | JStr submitter =>
               Ret (String.eqb (Str.lower recovered_address)
                               (Str.lower submitter))
           | _ => Raised
           end
     end)
    false.

End Validator.

End GistValidator.

(** ** utils/contract.py *)

Module AttestationContract.

Definition placeholder : string :=
  "0x0000000000000000000000000000000000000000".

Section Contract.

Variable E : Env.

(** [_load_contract_info]: the registry address [__init__] leaves in
    [self.attestation_registry_address].  [_load_abis] has its own
    handler and does not raise. *)
Definition attestation_registry_address : json :=
  catch
    (deployment <- match deployment E with
                   | Absent => Raised
                   | Illegible => Raised
                   | Holds j => Ret j
                   end ;;
     contracts <- py_item "contracts" deployment ;;
     registry <- py_item "AttestationRegistry" contracts ;;
     contracts' <- py_item "contracts" deployment ;;
     _ <- py_item "GistSubmission" contracts' ;;
     Ret registry)
    (JStr placeholder).

(** [create_attestation]: its result, and what it did on the chain. *)
Definition create_attestation
  (eth_address github_username : json) (gist_data : json)
  : bool * list action :=
  if eq_str attestation_registry_address placeholder then (false, [])
  else
    match py_get "gist_url" (JStr "unknown") gist_data with
    | Raised =>
        (* [gist_data.get] raises after [w3.eth.contract(...)] *)
        (false, [])
    | Ret gist_url =>
        let c := {| ethAddress := eth_address;
                    githubUsername := github_username;
                    gistUrl := gist_url |} in
        match chain E attestation_registry_address c with
        | NoContract => (false, [])
        | NotSent => (false, [Invoke c])
        | NotConfirmed => (false, [Invoke c; Send c])
        | Receipt status => (status =? 1, [Invoke c; Send c])
        end
    end.

End Contract.

End AttestationContract.

(** ** process_attestations.py *)

(** The environment variables [main] reads. *)
Record Config : Type := {
  NETWORK : option string;
  RPC_URL : option string;
  PRIVATE_KEY : option string;
  BASESCAN_API_KEY : option string;
  GITHUB_TOKEN : option string
}.

(** What a run finds when it starts. *)
Record Sources : Type := {
  (** [Path("state").mkdir(exist_ok=True)] succeeds *)
  state_dir_ok : bool;
  (** [state/<network>_state.json] *)
  state_file : file;
  (** what happens when the state file is rewritten *)
  write_fault : fault;
  (** [w3.eth.block_number] *)
  block_number : exn Z;
  (** the log-query API *)
  basescan_http : request -> nat -> exn json
}.

Inductive exit_status : Type :=
| Returned      (* [main] returns *)
| Exit1.        (* [sys.exit(1)] after "Fatal error" *)

(** What a run leaves behind. *)
Record report : Type := {
  exit : exit_status;
  state_after : file;
  actions : list action;
  processed_count : Z;
  failed_count : Z
}.

Module Orchestrator.

(** [os.getenv(name)] as the test [all([...])] sees it. *)
Definition set_and_nonempty (v : option string) : option string :=
  match v with
  | Some s => if String.eqb s "" then None else Some s
  | None => None
  end.

Section Run.

Variable L : Lib.

(** The deployed-contract table of the event source. *)
Variable addresses : list (string * string).

(** [process_single_event] *)
Definition process_single_event
  (E : Env) (event : dict) (github : bool) : bool * list action :=
  let gist_url := Dict.get "gist_url" JNull event in
  let submitter := Dict.get "submitter" JNull event in
  let gist_data := GistValidator.fetch_and_validate_gist L E github gist_url in
  if negb (truthy gist_data) then (false, [])
  else if negb (GistValidator.verify_signature_matches_address
                  L gist_data submitter)
  then (false, [])
  else
    match (address <- py_item "address" gist_data ;;
           username <- py_item "github_username" gist_data ;;
           Ret (address, username)) with
    | Raised => (false, [])
    | Ret (address, username) =>
        AttestationContract.create_attestation E address username gist_data
    end.

(** The loop [for event in events] of [main], around any [step] in
    the place of [process_single_event]: a step that raises is
    counted as failed and the loop goes on.  [i] is the position in
    the batch of the first event of [events]. *)
Fixpoint process_batch
  (step : nat -> dict -> exn (bool * list action))
  (i : nat) (events : list dict)
  (processed failed : Z) (done : list action) : Z * Z * list action :=
  match events with
  | [] => (processed, failed, done)
  | event :: r =>
      match step i event with
      | Ret (true, acts) =>
          process_batch step (S i) r (processed + 1) failed (done ++ acts)
      | Ret (false, acts) =>
          process_batch step (S i) r processed (failed + 1) (done ++ acts)
      | Raised =>
          process_batch step (S i) r processed (failed + 1) done
      end
  end.

(** What [main] has in hand when it reaches the fetch. *)
Record ready : Type := {
  network : string;
  basescan_api_key : string;
  base_url : string;
  github : bool;
  current_block : Z
}.

(** [main] up to [current_block = w3.eth.block_number]: the
    environment variables and the clients.  [Web3(HTTPProvider(url))]
    does not connect and is taken not to raise. *)
Definition setup (cfg : Config) (S0 : Sources) : exn ready :=
  let network := match NETWORK cfg with
                 | Some n => n
                 | None => "sepolia"
                 end in
  match set_and_nonempty (RPC_URL cfg),
        set_and_nonempty (PRIVATE_KEY cfg),
        set_and_nonempty (BASESCAN_API_KEY cfg) with
  | Some rpc_url, Some private_key, Some api_key =>
      if negb (valid_key L private_key) then Raised
      else
        url <- Basescan.init network ;;
        let github := match set_and_nonempty (GITHUB_TOKEN cfg) with
                      | Some _ => true
                      | None => false
                      end in
        if negb (state_dir_ok S0) then Raised
        else
          head <- block_number S0 ;;
          Ret {| network := network;
                 basescan_api_key := api_key;
                 base_url := url;
                 github := github;
                 current_block := head |}
  | _, _, _ => Raised
  end.

(** [state_manager.update_last_processed_block(current_block)] and
    the end of [main]. *)
Definition advance
  (R : ready) (S0 : Sources) (acts : list action) (p q : Z) : report :=
  let (f, r) := StateManager.update_last_processed_block
                  (network R) (current_block R)
                  (state_file S0) (write_fault S0) in
  {| exit := match r with Ret _ => Returned | Raised => Exit1 end;
     state_after := f;
     actions := acts ++ [SetBlock (current_block R)];
     processed_count := p;
     failed_count := q |}.

(** The call [basescan.get_gist_submission_events(last_block,
    current_block)] of [main]. *)
Definition fetch (R : ready) (S0 : Sources) : list dict * list request :=
  Basescan.get_gist_submission_events
    L addresses (basescan_http S0)
    (basescan_api_key R) (network R) (base_url R)
    (StateManager.get_last_processed_block (network R) (state_file S0))
    (current_block R) None.

(** [main] *)
Definition main (cfg : Config) (S0 : Sources) (during : nat -> Env)
  : report :=
  match setup cfg S0 with
  | Raised =>
      {| exit := Exit1; state_after := state_file S0; actions := [];
         processed_count := 0; failed_count := 0 |}
  | Ret R =>
      let last_block :=
        StateManager.get_last_processed_block (network R) (state_file S0) in
      let (events, sent) := fetch R S0 in
      let q := [Query last_block (current_block R) sent] in
      match events with
      | [] => advance R S0 q 0 0
      | _ =>
          let '(p, f, acts) :=
            process_batch
              (fun i event =>
                 Ret (process_single_event (during i) event (github R)))
              0 events 0 0 q in
          advance R S0 acts p f
      end
  end.

End Run.

End Orchestrator.

(** ** The decoding the specification asks for *)

(** The ABI layout of the data of
    [GistSubmitted(address indexed submitter, string gistUrl,
    uint256 timestamp)]: word 0 is the offset of [gistUrl], word 1 is
    [timestamp]; at the offset, one word of length and then the bytes.
    The source has no such decoder; this one is the reference
    [_parse_gist_submitted_event] is compared with. *)
Module Abi.

Definition hex_val (c : ascii) : option N :=
  let n := N_of_ascii c in
  if ((48 <=? n) && (n <=? 57))%N then Some (n - 48)%N
  else if ((97 <=? n) && (n <=? 102))%N then Some (n - 87)%N
  else if ((65 <=? n) && (n <=? 70))%N then Some (n - 55)%N
  else None.

Fixpoint hex_to_N (s : string) (acc : N) : option N :=
  match s with
  | EmptyString => Some acc
  | String c r =>
      match hex_val c with
      | Some v => hex_to_N r (16 * acc + v)%N
      | None => None
      end
  end.

(** The [i]-th 32-byte word of a payload written in hex. *)
Definition word (i : nat) (payload : string) : option N :=
  let w := String.substring (64 * i) 64 payload in
  if Nat.eqb (String.length w) 64 then hex_to_N w 0 else None.

Fixpoint hex_to_bytes (n : nat) (s : string) : option string :=
  match n with
  | O => Some EmptyString
  | S n' =>
      match s with
      | String a (String b r) =>
          match hex_val a, hex_val b, hex_to_bytes n' r with
          | Some hi, Some lo, Some rest =>
              Some (String (ascii_of_N (16 * hi + lo)) rest)
          | _, _, _ => None
          end
      | _ => None
      end
  end.

(** [(gistUrl, timestamp)] of a log's [data]. *)
Definition decode_gist_submitted (data : string) : option (string * Z) :=
  if Str.startswith "0x" data then
    let p := Str.drop 2 data in
    match word 0 p, word 1 p with
    | Some off, Some ts =>
        if (off mod 32 =? 0)%N then
          match word (N.to_nat (off / 32)) p with
          | Some len =>
              match hex_to_bytes (N.to_nat len)
                      (Str.drop (2 * (N.to_nat off + 32)) p) with
              | Some url => Some (url, Z.of_N ts)
              | None => None
              end
          | None => None
          end
        else None
    | _, _ => None
    end
  else None.

End Abi.

(** ** Concrete runs *)

(** A library, a gist host, a chain and a log-query API to run the
    program on. *)
Module Scenario.

Definition digit (base : Z) (c : ascii) : option Z :=
  match Abi.hex_val c with
  | Some v => if Z.of_N v <? base then Some (Z.of_N v) else None
  | None => None
  end.

Fixpoint digits (base : Z) (s : string) (acc : Z) : exn Z :=
  match s with
  | EmptyString => Ret acc
  | String c r =>
      match digit base c with
      | Some v => digits base r (base * acc + v)
      | None => Raised
      end
  end.

(** [int(s, base)] on digit strings, with [0x] in front for base 16. *)
Definition int_of_string (base : Z) (s : string) : exn Z :=
  let body := if ((base =? 16) && Str.startswith "0x" s)%bool
              then Str.drop 2 s else s in
  if String.eqb body "" then Raised else digits base body 0.

Definition quote : string := String (ascii_of_nat 34) EmptyString.

Definition quoted (s : string) : string := quote ++ s ++ quote.

(** The text of a JSON object whose values are given as JSON text. *)
Fixpoint members (kvs : list (string * string)) : string :=
  match kvs with
  | [] => ""
  | [(k, v)] => quoted k ++ ": " ++ v
  | (k, v) :: r => quoted k ++ ": " ++ v ++ ", " ++ members r
  end.

Definition object (kvs : list (string * string)) : string :=
  "{" ++ members kvs ++ "}".

Definition url0 : string := "https://gist.github.com/alice/0123abcd".
Definition message0 : string := "I am alice on GitHub".
Definition signature0 : string :=
  "0x1b2c3d4e5f60718293a4b5c6d7e8f90a1b2c3d4e5f60718293a4b5c6d7e8f90a9f8e7d6c5b4a39281706f5e4d3c2b1a09f8e7d6c5b4a39281706f5e4d3c2b1a01c".
Definition signer0 : string := "0x8ba1f109551bd432803012645ac136ddd64dba72".
Definition submission0 : string := "0xe7f1725e7734ce288f8367e1bb143e90bb3f0512".
Definition registry0 : string := "0x5fbdb2315678afecb367f032d93f642f64180aa3".
Definition now0 : Z := 1700000000.

(** A claim with the five required keys, signed one hour before [now0]. *)
Definition claim0 : dict :=
  [("message", JStr message0);
   ("signature", JStr signature0);
   ("address", JStr signer0);
   ("github_username", JStr "alice");
   ("timestamp", JNum (now0 - 3600))].

Definition claim0_text : string :=
  object [("message", quoted message0);
          ("signature", quoted signature0);
          ("address", quoted signer0);
          ("github_username", quoted "alice");
          ("timestamp", "1699996400")].

(** The same claim with one more key, [gist_url]. *)
Definition claim1 : dict :=
  (claim0 ++ [("gist_url", JStr "https://example.org/x")])%list.

Definition claim1_text : string :=
  object [("message", quoted message0);
          ("signature", quoted signature0);
          ("address", quoted signer0);
          ("github_username", quoted "alice");
          ("timestamp", "1699996400");
          ("gist_url", quoted "https://example.org/x")].

Definition L0 : Lib :=
  {| py_int := int_of_string;
     py_repr := fun _ => "";
     urlparse := fun u =>
       if String.eqb u url0
       then Ret ("gist.github.com", "/alice/0123abcd") else Raised;
     json_loads := fun t =>
       if String.eqb t claim0_text then Ret (JObj claim0)
       else if String.eqb t claim1_text then Ret (JObj claim1)
       else Raised;
     is_address := fun j =>
       match j with
       | JStr a => (Str.startswith "0x" a && Nat.eqb (String.length a) 42
                    && Str.all_hex (Str.drop 2 a))%bool
       | _ => false
       end;
     recover_message := fun m sg =>
       if (eq_str m message0 && eq_str sg signature0)%bool
       then Ret signer0 else Raised;
     valid_key := fun k => Nat.eqb (String.length k) 66 |}.

(** The gist host serving [text] as [claim.json] of gist [0123abcd]; a
    configured registry; a chain that confirms every transaction. *)
Definition env (text : string) : Env :=
  {| time_now := now0;
     github_get_gist := fun _ => Raised;
     public_get_gist := fun gist_id =>
       if String.eqb gist_id "0123abcd"
       then Ret (JObj [("files",
                        JObj [("claim.json",
                               JObj [("content", JStr text)])])])
       else Raised;
     deployment :=
       Holds (JObj [("contracts",
                     JObj [("AttestationRegistry", JStr registry0);
                           ("GistSubmission", JStr submission0)])]);
     chain := fun _ _ => Receipt 1 |}.

(** An event submitted by the signer of the claim. *)
Definition event0 : dict :=
  [("submitter", JStr signer0);
   ("gist_url", JStr url0);
   ("timestamp", JNum now0);
   ("transactionHash", JStr "0xabababababababababababababababababababababababababababababababab");
   ("blockNumber", JNum 7000001)].

(** A log of the event, as the log-query API gives it. *)
Definition log0_data : string :=
  "0x0000000000000000000000000000000000000000000000000000000000000040000000000000000000000000000000000000000000000000000000006553f100000000000000000000000000000000000000000000000000000000000000002668747470733a2f2f676973742e6769746875622e636f6d2f616c6963652f30313233616263640000000000000000000000000000000000000000000000000000".

Definition log0 : json :=
  JObj [("address", JStr submission0);
        ("topics", JList [JStr "0xc4c4c4c4c4c4c4c4c4c4c4c4c4c4c4c4c4c4c4c4c4c4c4c4c4c4c4c4c4c4c4c4";
                          JStr "0x0000000000000000000000008ba1f109551bd432803012645ac136ddd64dba72"]);
        ("data", JStr log0_data);
        ("blockNumber", JStr "0x6acfc1");
        ("timeStamp", JStr "0x6553f100");
        ("transactionHash", JStr "0xabababababababababababababababababababababababababababababababab")].

Definition config0 : Config :=
  {| NETWORK := Some "sepolia";
     RPC_URL := Some "https://sepolia.base.org";
     PRIVATE_KEY :=
       Some "0x1111111111111111111111111111111111111111111111111111111111111111";
     BASESCAN_API_KEY := Some "KEY";
     GITHUB_TOKEN := None |}.

(** The state file holding [block] for sepolia. *)
Definition stored (block : Z) : file :=
  Holds (JObj [("last_processed_block", JNum block);
               ("network", JStr "sepolia")]).

(** A run that starts with [f] as state file and [head] as chain head,
    against a log-query API answering [http]. *)
Definition sources (f : file) (head : Z) (http : request -> nat -> exn json)
  : Sources :=
  {| state_dir_ok := true;
     state_file := f;
     write_fault := NoFault;
     block_number := Ret head;
     basescan_http := http |}.

(** The log-query API is down. *)
Definition down : request -> nat -> exn json := fun _ _ => Raised.

(** The log-query API answers with [logs]. *)
Definition serving (logs : list json) : request -> nat -> exn json :=
  fun _ _ => Ret (JObj [("status", JStr "1");
                        ("message", JStr "OK");
                        ("result", JList logs)]).

(** The log-query API confirms that there are no events. *)
Definition no_events : request -> nat -> exn json := serving [].

(** What [main] has in hand after its setup under [config0]. *)
Definition ready0 (head : Z) : Orchestrator.ready :=
  {| Orchestrator.network := "sepolia";
     Orchestrator.basescan_api_key := "KEY";
     Orchestrator.base_url := "https://api-sepolia.basescan.org/api";
     Orchestrator.github := false;
     Orchestrator.current_block := head |}.

(** The log query for the blocks [fromBlock] to [toBlock]. *)
Definition query0 (fromBlock toBlock : string) : request :=
  {| req_url := "https://api-sepolia.basescan.org/api";
     req_params :=
       [("module", "logs");
        ("action", "getLogs");
        ("address", submission0);
        ("topic0", Basescan.topic0);
        ("fromBlock", fromBlock);
        ("toBlock", toBlock);
        ("apikey", "KEY")] |}.

End Scenario.

(** ** The state files of all networks *)

(** [StateManager(network)] works on the file
    [state/<network>_state.json]; the files are told apart by their
    path, as written. *)
Module Store.

(** [self.state_file] *)
Definition state_file (network : string) : string :=
  "state/" ++ network ++ "_state.json".

(** The directory [state]: what each path holds. *)
Definition files : Type := string -> file.

(** [StateManager(network).get_last_processed_block()] *)
Definition get (fs : files) (network : string) : json :=
  StateManager.get_last_processed_block network (fs (state_file network)).


End Store.

(** The state file can be rewritten: it is missing or holds a JSON
    object. *)
Definition writable (f : file) : bool :=
  match f with
  | Absent => true
  | Holds (JObj _) => true
  | _ => false
  end.

(** The record a writable state file holds ([{}] when it is missing). *)
Definition record_of (f : file) : dict :=
  match f with
  | Holds (JObj d) => d
  | _ => []
  end.

(** An attempt of the log query after which [_make_request] goes on to
    the next one: it raised, or its answer is not a dict, or it is a
    rate-limit answer. *)
Definition retried (L : Lib) (http : request -> nat -> exn json)
  (rq : request) (n : nat) : Prop :=
  match http rq n with
  | Raised => True
  | Ret data => Basescan.rate_limited L data <> Ret false
  end.

(** [deployments/<network>.json] is a JSON object whose [contracts]
    names both [AttestationRegistry] and [GistSubmission]. *)
Definition names_both_contracts (f : file) : bool :=
  match f with
  | Holds j =>
      match py_item "contracts" j with
      | Ret contracts =>
          match py_item "AttestationRegistry" contracts,
                py_item "GistSubmission" contracts with
          | Ret _, Ret _ => true
          | _, _ => false
          end
      | Raised => false
      end
  | _ => false
  end.

(** A field of a claim is there and is not empty. *)
Definition filled (d : dict) (field : string) : bool :=
  match Dict.lookup field d with
  | Some v => truthy v
  | None => false
  end.

(** The steps of the loop of [main] over a batch, one result per event:
    [i] is the position in the batch of the first event of [events]. *)
Fixpoint outcomes (step : nat -> dict -> exn (bool * list action))
  (i : nat) (events : list dict) : list (exn (bool * list action)) :=
  match events with
  | [] => []
  | event :: r => step i event :: outcomes step (S i) r
  end.

(** The step returned [True]. *)
Definition succeeded (o : exn (bool * list action)) : bool :=
  match o with
  | Ret (true, _) => true
  | _ => false
  end.

(** What the step did, when it returned. *)
Definition acts_of (o : exn (bool * list action)) : list action :=
  match o with
  | Ret (_, acts) => acts
  | Raised => []
  end.

(** What [main] leaves when it stops at its setup. *)
Definition stopped (S0 : Sources) : report :=
  {| exit := Exit1; state_after := state_file S0; actions := [];
     processed_count := 0; failed_count := 0 |}.

(** The test on a file name in the first loop of [_fetch_gist_content]. *)
Definition named_for_client (filename : string) : bool :=
  (Str.endswith ".json" filename
   || Str.contains "verification" (Str.lower filename))%bool.

(** [c not in s] *)
Fixpoint free_of (c : ascii) (s : string) : bool :=
  match s with
  | EmptyString => true
  | String d r => (negb (Ascii.eqb c d) && free_of c r)%bool
  end.

(** ** deploy.py *)

Module Deploy.

(** [c.upper()] on one ASCII character. *)
Definition upper_ascii (c : ascii) : ascii :=
  let n := nat_of_ascii c in
  if (Nat.leb 97 n && Nat.leb n 122)%bool then ascii_of_nat (n - 32) else c.

(** [s.upper()] *)
Fixpoint upper (s : string) : string :=
  match s with
  | EmptyString => EmptyString
  | String c r => String (upper_ascii c) (upper r)
  end.

(** [os.getenv(var)] is set and not empty. *)
Definition is_set (v : option string) : bool :=
  match v with
  | Some s => negb (String.eqb s "")
  | None => false
  end.

Definition build : list (option string) := [Some "forge"; Some "build"].

Section Deployment.

(** [os.getenv] *)
Variable getenv : string -> option string.

(** [subprocess.run(cmd, ...).returncode], for a command made of
    strings; [Raised] when the program cannot be started. *)
Variable run : list string -> exn Z.

(** The arguments of a command, when none of them is [None]. *)
Fixpoint all_strings (cmd : list (option string)) : option (list string) :=
  match cmd with
  | [] => Some []
  | Some a :: r =>
      match all_strings r with
      | Some l => Some (a :: l)
      | None => None
      end
  | None :: _ => None
  end.

(** [subprocess.run(cmd, capture_output=True, text=True)]: an argument
    that is [None] is a [TypeError]. *)
Definition launch (cmd : list (option string)) : exn Z :=
  match all_strings cmd with
  | Some args => run args
  | None => Raised
  end.

Definition required_vars (network : string) : list string :=
  ("DEPLOY_PRIVATE_KEY"
   :: (if String.eqb network "mainnet"
       then ["BASE_MAINNET_RPC_URL"; "BASESCAN_API_KEY"]
       else ["BASE_SEPOLIA_RPC_URL"; "BASESCAN_SEPOLIA_API_KEY"]))%list.

Definition missing_vars (network : string) : list string :=
  filter (fun var => negb (is_set (getenv var))) (required_vars network).

(** The [forge script] command of [deploy_contracts]. *)
Definition script (network : string) (verify : bool)
  : list (option string) :=
  ([Some "forge"; Some "script";
    Some "src/solidity/script/Deploy.s.sol:DeployScript";
    Some "--rpc-url"; getenv ("BASE_" ++ upper network ++ "_RPC_URL");
    Some "--private-key"; getenv "DEPLOY_PRIVATE_KEY";
    Some "--broadcast"]
   ++ (if verify
       then [Some "--verify"; Some "--etherscan-api-key";
             getenv ("BASESCAN"
                     ++ (if String.eqb network "sepolia"
                         then "_SEPOLIA" else "")
                     ++ "_API_KEY")]
       else []))%list.

(** [deploy_contracts]: whether it returned, and the commands it gave
    to [subprocess.run], in order.  [update_config], at its end, has
    its own handler and changes nothing. *)
Definition deploy_contracts (network : string) (verify : bool)
  : exn unit * list (list (option string)) :=
  match missing_vars network with
  | _ :: _ => (Raised, [])
  | [] =>
      match launch build with
      | Raised => (Raised, [build])
      | Ret returncode =>
          if negb (returncode =? 0) then (Raised, [build])
          else
            let cmd := script network verify in
            match launch cmd with
            | Raised => (Raised, [build; cmd])
            | Ret returncode' =>
                if negb (returncode' =? 0) then (Raised, [build; cmd])
                else (Ret tt, [build; cmd])
            end
      end
  end.

End Deployment.

End Deploy.

(** * Properties *)

(** ** Dictionaries *)

Lemma lookup_set_same (V : Type) (k : string) (v : V) (d : list (string * V)) :
  Dict.lookup k (Dict.set k v d) = Some v.
Proof.
  induction d as [|[k' v'] r IH]; simpl.
  - now rewrite String.eqb_refl.
  - destruct (String.eqb k k') eqn:Hk; simpl; rewrite Hk; auto.
Qed.

Lemma lookup_set_other (V : Type) (k k' : string) (v : V)
  (d : list (string * V)) :
  String.eqb k k' = false ->
  Dict.lookup k (Dict.set k' v d) = Dict.lookup k d.
Proof.
  intros Hkk'. induction d as [|[k'' v''] r IH]; simpl.
  - now rewrite Hkk'.
  - destruct (String.eqb k' k'') eqn:Hk; simpl.
    + apply String.eqb_eq in Hk. subst k''. now rewrite Hkk'.
    + destruct (String.eqb k k''); auto.
Qed.

(** ** The checkpoint store *)

(** The file holds no record: it is missing, illegible, or holds JSON
    that is not an object. *)
Definition no_record (f : file) : bool :=
  match f with
  | Absent => true
  | Illegible => true
  | Holds (JObj _) => false
  | Holds _ => true
  end.

Lemma get_no_record (network : string) (f : file) :
  no_record f = true ->
  StateManager.get_last_processed_block network f
  = JNum (StateManager._get_default_starting_block network).
Proof.
  destruct f as [| |j]; try reflexivity.
  destruct j; simpl; intros H; try reflexivity; discriminate.
Qed.

Lemma get_after_stamp (network : string) (b : Z) (data : json) (d : dict) :
  StateManager.stamp network b data = Ret d ->
  StateManager.get_last_processed_block network (Holds (JObj d)) = JNum b.
Proof.
  destruct data; simpl; try discriminate.
  intros H. injection H as <-.
  unfold StateManager.get_last_processed_block, py_get, catch, Dict.get.
  rewrite lookup_set_other by reflexivity.
  now rewrite lookup_set_same.
Qed.

Lemma get_after_load_and_stamp (network : string) (b : Z) (f : file) (d : dict) :
  StateManager.load_and_stamp network b f = Ret d ->
  StateManager.get_last_processed_block network (Holds (JObj d)) = JNum b.
Proof.
  unfold StateManager.load_and_stamp.
  destruct f as [| |j]; cbn [bind]; try discriminate; apply get_after_stamp.
Qed.

(** A set that returns has stored the block. *)
Lemma get_after_update (network : string) (b : Z) (f f' : file) (ft : fault) :
  StateManager.update_last_processed_block network b f ft = (f', Ret tt) ->
  StateManager.get_last_processed_block network f' = JNum b.
Proof.
  unfold StateManager.update_last_processed_block,
    StateManager.update_trajectory.
  destruct (StateManager.load_and_stamp network b f) as [d|] eqn:Hd;
    simpl; [|discriminate].
  destruct ft; simpl; try discriminate.
  intros H. injection H as <-.
  eapply get_after_load_and_stamp; eauto.
Qed.

(** C10. With no state file, or one that cannot be read, the store's get
    returns the default starting block of the network: 7000000 for
    sepolia, 10000000 for mainnet, and 0 for every other name. *)
Theorem default_starting_block (network : string) (f : file) :
  no_record f = true ->
  StateManager.get_last_processed_block network f
  = JNum (if String.eqb network "sepolia" then 7000000
          else if String.eqb network "mainnet" then 10000000
          else 0).
Proof.
  intros H. rewrite (get_no_record network f H).
  unfold StateManager._get_default_starting_block, Dict.get; simpl.
  destruct (String.eqb network "sepolia"); [reflexivity|].
  destruct (String.eqb network "mainnet"); reflexivity.
Qed.

Lemma default_starting_block_witness :
  StateManager.get_last_processed_block "goerli" Absent = JNum 0
  /\ StateManager.get_last_processed_block "sepolia" Illegible = JNum 7000000
  /\ StateManager.get_last_processed_block "mainnet" (Holds (JList []))
     = JNum 10000000.
Proof.
  split; [|split].
  - exact (default_starting_block "goerli" Absent eq_refl).
  - exact (default_starting_block "sepolia" Illegible eq_refl).
  - exact (default_starting_block "mainnet" (Holds (JList [])) eq_refl).
Defined.

(** The file is a checkpoint record a get can read a block from. *)
Definition legible (f : file) : bool :=
  match f with
  | Holds (JObj d) =>
      match Dict.lookup "last_processed_block" d with
      | Some (JNum _) => true
      | _ => false
      end
  | _ => false
  end.

(** C8, as stated, fails: while the store sets block 105 over a record
    holding 100, the file is for a time not a legible record, and a get
    at that point returns the default 7000000, neither 100 nor 105; a set
    that fails during the dump leaves the file in that state. *)
Lemma set_not_atomic :
  ~ (forall f' : file,
        In f' (StateManager.update_trajectory
                 "sepolia" 105 (Scenario.stored 100) NoFault) ->
        legible f' = true)
  /\ StateManager.get_last_processed_block "sepolia" Illegible = JNum 7000000
  /\ StateManager.update_last_processed_block
       "sepolia" 105 (Scenario.stored 100) DumpFails = (Illegible, Raised).
Proof.
  split; [|split; reflexivity].
  intros H. specialize (H Illegible). simpl in H.
  assert (false = true) by (apply H; auto). discriminate.
Qed.

(** C8, amended. The store rewrites the state file in place: it is
    opened for writing, which truncates it, and the record is then
    dumped into it.  A set that completes leaves exactly the new record,
    from which get returns the new block.  Between the truncation and
    the end of the dump, and after a set that fails during the dump, the
    file is illegible and get returns the network default; a set that
    fails at the opening leaves the file as it was. *)
Theorem set_rewrites_in_place
  (network : string) (b : Z) (f : file) (ft : fault) (data : dict) :
  StateManager.load_and_stamp network b f = Ret data ->
  StateManager.update_trajectory network b f ft
  = match ft with
    | OpenFails => [f]
    | DumpFails => [f; Illegible]
    | NoFault => [f; Illegible; Holds (JObj data)]
    end
  /\ StateManager.update_last_processed_block network b f ft
     = match ft with
       | OpenFails => (f, Raised)
       | DumpFails => (Illegible, Raised)
       | NoFault => (Holds (JObj data), Ret tt)
       end
  /\ StateManager.get_last_processed_block network (Holds (JObj data)) = JNum b
  /\ StateManager.get_last_processed_block network Illegible
     = JNum (StateManager._get_default_starting_block network).
Proof.
  intros H.
  unfold StateManager.update_last_processed_block,
    StateManager.update_trajectory.
  rewrite H. split; [|split; [|split]].
  - reflexivity.
  - destruct ft; reflexivity.
  - eapply get_after_load_and_stamp; eauto.
  - reflexivity.
Qed.

Lemma set_rewrites_in_place_witness :
  StateManager.update_last_processed_block
    "sepolia" 105 (Scenario.stored 100) NoFault
  = (Scenario.stored 105, Ret tt).
Proof.
  exact (proj1 (proj2 (set_rewrites_in_place
                         "sepolia" 105 (Scenario.stored 100) NoFault
                         eq_refl))).
Defined.

(** ** The claim validator *)

(** C7, as stated, fails: a timestamp exactly 24 * 3600 = 86400 seconds
    old is accepted, not rejected. *)
Lemma day_old_timestamp_accepted :
  time_now (Scenario.env Scenario.claim0_text) - (Scenario.now0 - 86400) = 86400
  /\ GistValidator._validate_timestamp Scenario.L0
       (Scenario.env Scenario.claim0_text)
       (JObj [("timestamp", JNum (Scenario.now0 - 86400))]) 24
     = true.
Proof. split; reflexivity. Qed.

(** C7, amended. A claim whose timestamp reads as the integer [t] is
    fresh at time [now] exactly when [now - t <= 86400] and
    [t <= now + 300]: a timestamp exactly 86400 seconds old is accepted
    and one of 86401 seconds is rejected; 86399 seconds old is accepted;
    301 seconds in the future is rejected and 299 seconds is accepted. *)
Theorem freshness_boundary (L : Lib) (E : Env) (data ts : json) (t : Z) :
  py_item "timestamp" data = Ret ts ->
  py_int_of L ts = Ret t ->
  let fresh := GistValidator._validate_timestamp L E data 24 in
  (fresh = true <-> time_now E - t <= 86400 /\ t <= time_now E + 300)
  /\ (time_now E - t = 86400 -> fresh = true)
  /\ (time_now E - t = 86401 -> fresh = false)
  /\ (time_now E - t = 86399 -> fresh = true)
  /\ (t - time_now E = 301 -> fresh = false)
  /\ (t - time_now E = 299 -> fresh = true).
Proof.
  intros Hts Ht fresh.
  assert (Hiff : fresh = true <->
                 time_now E - t <= 86400 /\ t <= time_now E + 300).
  { unfold fresh, GistValidator._validate_timestamp.
    rewrite Hts. cbn [bind]. rewrite Ht. cbn [bind catch].
    change (24 * 3600) with 86400.
    destruct (Z.gtb_spec (time_now E - t) 86400);
      destruct (Z.gtb_spec t (time_now E + 300)); cbn [catch];
      split; intros; try discriminate; try lia; reflexivity. }
  split; [exact Hiff|].
  repeat split; intros;
    try (apply Hiff; lia);
    (destruct fresh; [|reflexivity]);
    (assert (time_now E - t <= 86400 /\ t <= time_now E + 300)
      by (now apply Hiff)); lia.
Qed.

Lemma freshness_boundary_witness :
  GistValidator._validate_timestamp Scenario.L0
    (Scenario.env Scenario.claim0_text)
    (JObj [("timestamp", JNum (Scenario.now0 - 86400))]) 24 = true.
Proof.
  apply (proj1 (proj2 (@freshness_boundary Scenario.L0
                         (Scenario.env Scenario.claim0_text)
                         (JObj [("timestamp", JNum (Scenario.now0 - 86400))])
                         (JNum (Scenario.now0 - 86400))
                         (Scenario.now0 - 86400) eq_refl eq_refl))).
  reflexivity.
Defined.

(** A claim that comes out of [fetch_and_validate_gist] has passed the
    three validations. *)
Lemma validated (L : Lib) (E : Env) (github : bool) (gist_url : json) :
  let doc := GistValidator.fetch_and_validate_gist L E github gist_url in
  truthy doc = true ->
  GistValidator._validate_json_structure L doc = Ret true
  /\ GistValidator._validate_signature L doc = true
  /\ GistValidator._validate_timestamp L E doc 24 = true.
Proof.
  unfold GistValidator.fetch_and_validate_gist.
  destruct (GistValidator._extract_gist_id L gist_url) as [gist_id|];
    [|simpl; discriminate].
  set (gist_data := GistValidator._fetch_gist_content L E github gist_id).
  destruct (truthy gist_data) eqn:Htruthy; [|simpl; discriminate].
  cbn [negb].
  destruct (GistValidator._validate_json_structure L gist_data) as [[|]|]
    eqn:Hstructure; [|simpl; discriminate|simpl; discriminate].
  cbn [bind negb].
  destruct (GistValidator._validate_signature L gist_data) eqn:Hsignature;
    [|simpl; discriminate].
  destruct (GistValidator._validate_timestamp L E gist_data 24) eqn:Htime;
    [|simpl; discriminate].
  cbn [negb catch]. intros _. auto.
Qed.

(** What [_validate_signature] has checked when it accepts. *)
Lemma signature_of_claimed_address (L : Lib) (doc : json) :
  GistValidator._validate_signature L doc = true ->
  exists message signature recovered claimed,
    py_item "message" doc = Ret message
    /\ py_item "signature" doc = Ret signature
    /\ py_item "address" doc = Ret (JStr claimed)
    /\ recover_message L message signature = Ret recovered
    /\ Str.lower recovered = Str.lower claimed.
Proof.
  unfold GistValidator._validate_signature.
  destruct (py_item "message" doc) as [message|] eqn:Hm; [|discriminate].
  destruct (py_item "signature" doc) as [signature|] eqn:Hs; [|discriminate].
  destruct (py_item "address" doc) as [address|] eqn:Ha; [|discriminate].
  cbn [bind].
  destruct (recover_message L message signature) as [recovered|] eqn:Hr;
    [|discriminate].
  cbn [bind].
  destruct address as [| | |claimed| |]; try discriminate.
  destruct (String.eqb (Str.lower recovered) (Str.lower claimed)) eqn:Heq;
    [|discriminate].
  intros _. exists message, signature, recovered, claimed.
  apply String.eqb_eq in Heq. repeat split; assumption || reflexivity.
Qed.

(** What [verify_signature_matches_address] has checked when it
    accepts. *)
Lemma signature_of_submitter (L : Lib) (doc submitter_address : json) :
  GistValidator.verify_signature_matches_address L doc submitter_address
  = true ->
  exists message signature recovered submitter,
    py_item "message" doc = Ret message
    /\ py_item "signature" doc = Ret signature
    /\ recover_message L message signature = Ret recovered
    /\ submitter_address = JStr submitter
    /\ Str.lower recovered = Str.lower submitter.
Proof.
  unfold GistValidator.verify_signature_matches_address,
    GistValidator._recover_address_from_signature.
  destruct (py_item "message" doc) as [message|] eqn:Hm; [|discriminate].
  destruct (py_item "signature" doc) as [signature|] eqn:Hs; [|discriminate].
  cbn [bind].
  destruct (recover_message L message signature) as [recovered|] eqn:Hr;
    [|discriminate].
  cbn [bind catch].
  destruct (String.eqb recovered ""); [discriminate|].
  destruct submitter_address as [| | |submitter| |]; try discriminate.
  cbn [catch]. intros Heq. apply String.eqb_eq in Heq.
  exists message, signature, recovered, submitter.
  repeat split; assumption || reflexivity.
Qed.

(** ** Handling one event *)

(** Nothing is done on the chain for an event unless its claim came out
    of [fetch_and_validate_gist] and the second comparison passed. *)
Lemma acted_after_checks (L : Lib) (E : Env) (event : dict) (github : bool) :
  let doc := GistValidator.fetch_and_validate_gist L E github
               (Dict.get "gist_url" JNull event) in
  let r := Orchestrator.process_single_event L E event github in
  fst r = true \/ snd r <> [] ->
  truthy doc = true
  /\ GistValidator.verify_signature_matches_address
       L doc (Dict.get "submitter" JNull event) = true
  /\ exists address username,
       py_item "address" doc = Ret address
       /\ py_item "github_username" doc = Ret username
       /\ r = AttestationContract.create_attestation E address username doc.
Proof.
  unfold Orchestrator.process_single_event.
  set (doc := GistValidator.fetch_and_validate_gist L E github
                (Dict.get "gist_url" JNull event)).
  destruct (truthy doc);
    [|simpl; intros [H|H]; [discriminate|now elim H]].
  destruct (GistValidator.verify_signature_matches_address
              L doc (Dict.get "submitter" JNull event));
    [|simpl; intros [H|H]; [discriminate|now elim H]].
  cbn [negb].
  destruct (py_item "address" doc) as [address|] eqn:Ha;
    [|simpl; intros [H|H]; [discriminate|now elim H]].
  destruct (py_item "github_username" doc) as [username|] eqn:Hu;
    [|simpl; intros [H|H]; [discriminate|now elim H]].
  cbn [bind]. intros _. repeat split. now exists address, username.
Qed.

(** C2. Something is written on the chain for an event (or the event
    counts as a success) only if its claim passed fetch-and-validate and
    both comparisons hold: the address recovered from the claim's
    signature over its message equals, in lower case, the claim's own
    address, and it equals, in lower case, the event's submitter. *)
Theorem attestation_requires_both_checks
  (L : Lib) (E : Env) (event : dict) (github : bool) :
  let doc := GistValidator.fetch_and_validate_gist L E github
               (Dict.get "gist_url" JNull event) in
  let r := Orchestrator.process_single_event L E event github in
  fst r = true \/ snd r <> [] ->
  truthy doc = true
  /\ exists message signature recovered claimed submitter,
       py_item "message" doc = Ret message
       /\ py_item "signature" doc = Ret signature
       /\ recover_message L message signature = Ret recovered
       /\ py_item "address" doc = Ret (JStr claimed)
       /\ Str.lower recovered = Str.lower claimed
       /\ Dict.get "submitter" JNull event = JStr submitter
       /\ Str.lower recovered = Str.lower submitter.
Proof.
  intros doc r H.
  destruct (acted_after_checks L E event github H) as (Hdoc & Hverify & _).
  split; [exact Hdoc|].
  destruct (validated L E github _ Hdoc) as (_ & Hsignature & _).
  destruct (signature_of_claimed_address L _ Hsignature)
    as (message & signature & recovered & claimed & Hm & Hs & Ha & Hr & Hl).
  destruct (signature_of_submitter L _ _ Hverify)
    as (message' & signature' & recovered' & submitter
        & Hm' & Hs' & Hr' & Hsub & Hl').
  fold doc in Hm, Hs, Ha, Hm', Hs'.
  rewrite Hm in Hm'. injection Hm' as <-.
  rewrite Hs in Hs'. injection Hs' as <-.
  rewrite Hr in Hr'. injection Hr' as <-.
  exists message, signature, recovered, claimed, submitter.
  repeat split; assumption.
Qed.

Lemma attestation_requires_both_checks_witness :
  let doc := GistValidator.fetch_and_validate_gist Scenario.L0
               (Scenario.env Scenario.claim0_text) false
               (Dict.get "gist_url" JNull Scenario.event0) in
  let r := Orchestrator.process_single_event Scenario.L0
             (Scenario.env Scenario.claim0_text) Scenario.event0 false in
  fst r = true
  /\ truthy doc = true
  /\ exists message signature recovered claimed submitter,
       py_item "message" doc = Ret message
       /\ py_item "signature" doc = Ret signature
       /\ recover_message Scenario.L0 message signature = Ret recovered
       /\ py_item "address" doc = Ret (JStr claimed)
       /\ Str.lower recovered = Str.lower claimed
       /\ Dict.get "submitter" JNull Scenario.event0 = JStr submitter
       /\ Str.lower recovered = Str.lower submitter.
Proof.
  split; [reflexivity|].
  apply (@attestation_requires_both_checks Scenario.L0
           (Scenario.env Scenario.claim0_text) Scenario.event0 false).
  left. reflexivity.
Defined.

(** C9, as stated, fails: a claim that passes every validation and has,
    besides the five required keys, a key [gist_url], makes the writer
    call createAttestation with that value, not with the literal
    unknown. *)
Lemma gist_url_from_claim_key :
  GistValidator.fetch_and_validate_gist Scenario.L0
    (Scenario.env Scenario.claim1_text) false (JStr Scenario.url0)
  = JObj Scenario.claim1
  /\ Orchestrator.process_single_event Scenario.L0
       (Scenario.env Scenario.claim1_text) Scenario.event0 false
     = (true,
        [Invoke {| ethAddress := JStr Scenario.signer0;
                   githubUsername := JStr "alice";
                   gistUrl := JStr "https://example.org/x" |};
         Send {| ethAddress := JStr Scenario.signer0;
                 githubUsername := JStr "alice";
                 gistUrl := JStr "https://example.org/x" |}])
  /\ JStr "https://example.org/x" <> JStr "unknown".
Proof. split; [reflexivity|split; [reflexivity|discriminate]]. Qed.

(** C9, amended. Whenever createAttestation is invoked for an event, the
    claim that passed validation is a dict and the gistUrl argument is
    what the claim has under the key [gist_url], or the literal unknown
    when it has no such key, as for a claim with just the five required
    keys; the address and the username are the claim's own; the
    [gist_url] of the event is not an argument of the call. *)
Theorem attestation_gist_url
  (L : Lib) (E : Env) (event : dict) (github : bool) (c : call) :
  let doc := GistValidator.fetch_and_validate_gist L E github
               (Dict.get "gist_url" JNull event) in
  In (Invoke c) (snd (Orchestrator.process_single_event L E event github)) ->
  exists d,
    doc = JObj d
    /\ gistUrl c = Dict.get "gist_url" (JStr "unknown") d
    /\ (Dict.lookup "gist_url" d = None -> gistUrl c = JStr "unknown")
    /\ Dict.item "address" d = Ret (ethAddress c)
    /\ Dict.item "github_username" d = Ret (githubUsername c).
Proof.
  intros doc Hin.
  assert (Hacted : snd (Orchestrator.process_single_event L E event github)
                   <> []).
  { intros Hnil. rewrite Hnil in Hin. exact Hin. }
  destruct (acted_after_checks L E event github (or_intror Hacted))
    as (_ & _ & address & username & Ha & Hu & Hr).
  fold doc in Ha, Hu, Hr. rewrite Hr in Hin. clear Hr Hacted.
  unfold AttestationContract.create_attestation in Hin.
  destruct (eq_str (AttestationContract.attestation_registry_address E)
              AttestationContract.placeholder); [now simpl in Hin|].
  destruct doc as [| | | | |d]; try (now simpl in Hin).
  exists d. cbn [py_get] in Hin.
  assert (Hc : c = {| ethAddress := address;
                      githubUsername := username;
                      gistUrl := Dict.get "gist_url" (JStr "unknown") d |}).
  { destruct (chain E (AttestationContract.attestation_registry_address E) _);
      simpl in Hin; intuition congruence. }
  subst c. cbn [gistUrl ethAddress githubUsername].
  repeat split; try assumption.
  unfold Dict.get. now intros ->.
Qed.

Lemma attestation_gist_url_witness :
  let c := {| ethAddress := JStr Scenario.signer0;
              githubUsername := JStr "alice";
              gistUrl := JStr "unknown" |} in
  In (Invoke c)
     (snd (Orchestrator.process_single_event Scenario.L0
             (Scenario.env Scenario.claim0_text) Scenario.event0 false))
  /\ exists d,
       GistValidator.fetch_and_validate_gist Scenario.L0
         (Scenario.env Scenario.claim0_text) false
         (Dict.get "gist_url" JNull Scenario.event0) = JObj d
       /\ gistUrl c = Dict.get "gist_url" (JStr "unknown") d
       /\ (Dict.lookup "gist_url" d = None -> gistUrl c = JStr "unknown")
       /\ Dict.item "address" d = Ret (ethAddress c)
       /\ Dict.item "github_username" d = Ret (githubUsername c).
Proof.
  intros c.
  assert (Hin : In (Invoke c)
                  (snd (Orchestrator.process_single_event Scenario.L0
                          (Scenario.env Scenario.claim0_text)
                          Scenario.event0 false)))
    by (left; reflexivity).
  split; [exact Hin|].
  exact (@attestation_gist_url Scenario.L0
           (Scenario.env Scenario.claim0_text) Scenario.event0 false c Hin).
Defined.

(** ** The event source *)


(** C3. On the log of an event whose data ABI-decode to the gist URL
    https://gist.github.com/alice/0123abcd and the timestamp 1700000000,
    the parser returns an event whose [gist_url] is the literal
    placeholder and whose [timestamp] is read from the log's [timeStamp]
    field: the data are not decoded. *)
Theorem parse_log0_leaves_placeholder :
  Abi.decode_gist_submitted Scenario.log0_data
  = Some (Scenario.url0, Scenario.now0)
  /\ Basescan._parse_gist_submitted_event Scenario.L0 Scenario.log0
     = Some [("submitter", JStr Scenario.signer0);
             ("gist_url", JStr "placeholder");
             ("timestamp", JNum Scenario.now0);
             ("transactionHash",
              Dict.get "transactionHash" JNull Scenario.event0);
             ("blockNumber", JNum 7000001)]
  /\ JStr "placeholder" <> JStr Scenario.url0.
Proof. split; [reflexivity|split; [reflexivity|discriminate]]. Qed.

(** Every request of one [_make_request] is the same request. *)
Lemma attempts_sent (L : Lib) (http : request -> nat -> exn json)
  (rq rq' : request) (left attempt : nat) :
  In rq' (snd (Basescan.attempts L http rq left attempt)) -> rq' = rq.
Proof.
  revert attempt. induction left as [|left IH]; intros attempt; simpl.
  - contradiction.
  - assert (Hagain :
      In rq' (snd (let (r, sent) := Basescan.attempts L http rq left (S attempt)
                   in (r, rq :: sent))) -> rq' = rq).
    { destruct (Basescan.attempts L http rq left (S attempt)) as [r sent] eqn:Hr.
      simpl. intros [H|H]; [now symmetry|].
      apply (IH (S attempt)). now rewrite Hr. }
    destruct (http rq attempt) as [data|]; cbn [bind].
    + destruct (Basescan.rate_limited L data) as [[|]|]; cbn [bind];
        destruct (Nat.ltb attempt 2); simpl; auto;
        intros [H|H]; now (symmetry || contradiction).
    + destruct (Nat.ltb attempt 2); simpl; auto.
      intros [H|H]; now (symmetry || contradiction).
Qed.

(** A log query that raises at every attempt: three requests, then the
    exception. *)
Lemma attempts_down (L : Lib) (http : request -> nat -> exn json)
  (rq : request) :
  (forall n, (n < 3)%nat -> http rq n = Raised) ->
  Basescan.attempts L http rq 3 0 = (Raised, [rq; rq; rq]).
Proof.
  intros Hdown. simpl.
  rewrite (Hdown 0%nat), (Hdown 1%nat), (Hdown 2%nat) by lia.
  reflexivity.
Qed.


(** When every attempt of the log query raises, the event source
    returns the empty list, after three requests if it got to query. *)
Lemma events_when_down (L : Lib) (addresses : list (string * string))
  (http : request -> nat -> exn json) (api_key network base_url : string)
  (from_block : json) (to_block : Z) (contract_address : option string) :
  (forall rq n, (n < 3)%nat -> http rq n = Raised) ->
  let r := Basescan.get_gist_submission_events L addresses http
             api_key network base_url from_block to_block contract_address in
  fst r = [] /\ (snd r = [] \/ exists rq, snd r = [rq; rq; rq]).
Proof.
  intros Hdown. unfold Basescan.get_gist_submission_events.
  match goal with
  | |- context [bind ?m _] => destruct m as [address|]
  end; cbn [bind]; [|simpl; auto].
  destruct (py_hex from_block) as [fromBlock|]; cbn [bind]; [|simpl; auto].
  unfold Basescan._make_request.
  rewrite attempts_down by (intros n Hn; now apply Hdown).
  simpl. split; [reflexivity|]. right. eexists. reflexivity.
Qed.

(** ** The orchestrator *)

(** What is done on the chain. *)
Definition on_chain (a : action) : Prop :=
  match a with
  | Invoke _ => True
  | Send _ => True
  | _ => False
  end.

Lemma create_attestation_on_chain (E : Env)
  (eth_address github_username gist_data : json) :
  Forall on_chain
    (snd (AttestationContract.create_attestation
            E eth_address github_username gist_data)).
Proof.
  unfold AttestationContract.create_attestation.
  destruct (eq_str _ _); [constructor|].
  destruct (py_get "gist_url" (JStr "unknown") gist_data); [|constructor].
  destruct (chain E _ _); simpl; repeat constructor.
Qed.

Lemma process_single_event_on_chain
  (L : Lib) (E : Env) (event : dict) (github : bool) :
  Forall on_chain (snd (Orchestrator.process_single_event L E event github)).
Proof.
  unfold Orchestrator.process_single_event.
  destruct (truthy _); [|constructor].
  destruct (GistValidator.verify_signature_matches_address _ _ _);
    [|constructor].
  cbn [negb].
  match goal with
  | |- context [match ?m with Ret _ => _ | Raised => _ end] =>
      destruct m as [[address username]|]
  end; [|constructor].
  apply create_attestation_on_chain.
Qed.

(** The loop counts every event once, as processed or as failed, and
    only adds to what has been done what its steps do. *)
Lemma process_batch_counts
  (step : nat -> dict -> exn (bool * list action)) (P : action -> Prop)
  (events : list dict) :
  (forall i event b acts, step i event = Ret (b, acts) -> Forall P acts) ->
  forall (i : nat) (processed failed : Z) (done : list action),
  exists processed' failed' more,
    Orchestrator.process_batch step i events processed failed done
    = (processed', failed', (done ++ more)%list)
    /\ processed' + failed' = processed + failed + Z.of_nat (List.length events)
    /\ processed <= processed'
    /\ failed <= failed'
    /\ Forall P more.
Proof.
  intros Hstep.
  induction events as [|event rest IH]; intros i processed failed done.
  - exists processed, failed, []. simpl. rewrite app_nil_r.
    repeat split; try lia. constructor.
  - cbn [Orchestrator.process_batch].
    destruct (step i event) as [[[|] acts]|] eqn:Hs.
    + destruct (IH (S i) (processed + 1) failed (done ++ acts)%list)
        as (p & f & more & Heq & Hsum & Hp & Hf & HP).
      exists p, f, (acts ++ more)%list. rewrite Heq, app_assoc.
      cbn [List.length]. repeat split; try lia.
      apply Forall_app. split; [eapply Hstep; eauto|assumption].
    + destruct (IH (S i) processed (failed + 1) (done ++ acts)%list)
        as (p & f & more & Heq & Hsum & Hp & Hf & HP).
      exists p, f, (acts ++ more)%list. rewrite Heq, app_assoc.
      cbn [List.length]. repeat split; try lia.
      apply Forall_app. split; [eapply Hstep; eauto|assumption].
    + destruct (IH (S i) processed (failed + 1) done)
        as (p & f & more & Heq & Hsum & Hp & Hf & HP).
      exists p, f, more. rewrite Heq.
      cbn [List.length]. repeat split; try lia. assumption.
Qed.

(** A run that got through its setup calls the event source once, with
    the stored checkpoint and the chain head, handles every event, and
    then sets the checkpoint to the chain head. *)
Lemma main_ready (L : Lib) (addresses : list (string * string))
  (cfg : Config) (S0 : Sources) (during : nat -> Env)
  (R : Orchestrator.ready) :
  Orchestrator.setup L cfg S0 = Ret R ->
  exists processed failed more,
    Orchestrator.main L addresses cfg S0 during
    = Orchestrator.advance R S0
        (Query (StateManager.get_last_processed_block
                  (Orchestrator.network R) (state_file S0))
               (Orchestrator.current_block R)
               (snd (Orchestrator.fetch L addresses R S0)) :: more)
        processed failed
    /\ processed + failed
       = Z.of_nat (List.length (fst (Orchestrator.fetch L addresses R S0)))
    /\ 0 <= processed /\ 0 <= failed
    /\ (fst (Orchestrator.fetch L addresses R S0) = [] ->
        more = [] /\ processed = 0 /\ failed = 0)
    /\ Forall on_chain more.
Proof.
  intros Hsetup. unfold Orchestrator.main. rewrite Hsetup.
  destruct (Orchestrator.fetch L addresses R S0) as [events sent].
  cbn [fst snd].
  destruct events as [|event rest].
  - exists 0, 0, []. repeat split; simpl; try lia. constructor.
  - match goal with
    | |- context [Orchestrator.process_batch ?step 0 ?evs 0 0 ?q] =>
        assert (Hstep : forall i ev b acts,
                   step i ev = Ret (b, acts) -> Forall on_chain acts);
        [|destruct (@process_batch_counts step on_chain evs Hstep 0%nat 0 0 q)
            as (p & f & more & Heq & Hsum & Hp & Hf & HP);
          rewrite Heq]
    end.
    + intros i ev b acts H. injection H as H.
      change acts with (snd (b, acts)). rewrite <- H.
      apply process_single_event_on_chain.
    + exists p, f, more. repeat split; try lia; try assumption;
        discriminate.
Qed.

(** What [advance] leaves is what the store's set leaves. *)
Lemma advance_sets (R : Orchestrator.ready) (S0 : Sources)
  (acts : list action) (p q : Z) :
  let r := Orchestrator.advance R S0 acts p q in
  let u := StateManager.update_last_processed_block
             (Orchestrator.network R) (Orchestrator.current_block R)
             (state_file S0) (write_fault S0) in
  state_after r = fst u
  /\ exit r = match snd u with Ret _ => Returned | Raised => Exit1 end
  /\ actions r = (acts ++ [SetBlock (Orchestrator.current_block R)])%list
  /\ processed_count r = p
  /\ failed_count r = q
  /\ (exit r = Returned ->
      StateManager.get_last_processed_block
        (Orchestrator.network R) (state_after r)
      = JNum (Orchestrator.current_block R)).
Proof.
  unfold Orchestrator.advance.
  destruct (StateManager.update_last_processed_block
              (Orchestrator.network R) (Orchestrator.current_block R)
              (state_file S0) (write_fault S0)) as [f x] eqn:Hu.
  simpl. repeat split.
  destruct x as [[]|]; [|discriminate].
  intros _. eapply get_after_update; eauto.
Qed.

(** A run that returns got through its setup. *)
Lemma returned_ready (L : Lib) (addresses : list (string * string))
  (cfg : Config) (S0 : Sources) (during : nat -> Env) :
  exit (Orchestrator.main L addresses cfg S0 during) = Returned ->
  exists R, Orchestrator.setup L cfg S0 = Ret R
            /\ block_number S0 = Ret (Orchestrator.current_block R).
Proof.
  unfold Orchestrator.main.
  destruct (Orchestrator.setup L cfg S0) as [R|] eqn:Hsetup;
    [|simpl; discriminate].
  intros _. exists R. split; [reflexivity|].
  revert Hsetup. unfold Orchestrator.setup.
  destruct (Orchestrator.set_and_nonempty (RPC_URL cfg)); [|discriminate].
  destruct (Orchestrator.set_and_nonempty (PRIVATE_KEY cfg)) as [key|];
    [|discriminate].
  destruct (Orchestrator.set_and_nonempty (BASESCAN_API_KEY cfg));
    [|discriminate].
  destruct (valid_key L key); [|discriminate]. cbn [negb].
  destruct (Basescan.init _); [|discriminate]. cbn [bind].
  destruct (state_dir_ok S0); [|discriminate]. cbn [negb].
  destruct (block_number S0) as [head|]; [|discriminate]. cbn [bind].
  intros H. injection H as <-. reflexivity.
Qed.













(** C1, as stated, fails: a call of the event source whose log query
    raises at all three attempts returns the empty list after its three
    requests, as the same call does when the API confirms that there
    are no events; it raises nothing, and its caller cannot tell the
    two apart. *)
Lemma outage_returns_empty_list :
  let call := fun http =>
                Basescan.get_gist_submission_events Scenario.L0
                  Basescan.source_addresses http "KEY" "sepolia"
                  "https://api-sepolia.basescan.org/api" (JNum 100) 105
                  (Some Scenario.submission0) in
  (forall rq n, Scenario.down rq n = Raised)
  /\ call Scenario.down
     = ([], [Scenario.query0 "0x64" "0x69"; Scenario.query0 "0x64" "0x69";
             Scenario.query0 "0x64" "0x69"])
  /\ call Scenario.no_events = ([], [Scenario.query0 "0x64" "0x69"])
  /\ fst (call Scenario.down) = fst (call Scenario.no_events).
Proof. repeat split. Qed.

(** C1, amended. Every call of the event source whose log query raises
    at all three attempts returns the empty list, as for a confirmed
    zero-event result, and raises nothing: after three requests when it
    has a contract address to query (it has when one is passed to it),
    after none when it has not.  A run whose fetch is such a call
    handles no event and goes on to set the checkpoint to the chain
    head: it returns whenever that set does, and the store then gives
    the chain head. *)
Theorem outage_reads_as_no_events
  (L : Lib) (addresses : list (string * string))
  (http : request -> nat -> exn json) (api_key network base_url : string)
  (from_block : json) (to_block : Z) (contract_address : option string) :
  (forall rq n, (n < 3)%nat -> http rq n = Raised) ->
  let r := Basescan.get_gist_submission_events L addresses http
             api_key network base_url from_block to_block contract_address in
  fst r = []
  /\ (snd r = [] \/ exists rq, snd r = [rq; rq; rq])
  /\ (forall address fromBlock,
        contract_address = Some address ->
        address <> "" ->
        py_hex from_block = Ret fromBlock ->
        let rq := {| req_url := base_url;
                     req_params :=
                       [("module", "logs");
                        ("action", "getLogs");
                        ("address", address);
                        ("topic0", Basescan.topic0);
                        ("fromBlock", fromBlock);
                        ("toBlock", HexString.of_Z to_block);
                        ("apikey", api_key)] |} in
        snd r = [rq; rq; rq])
  /\ forall (cfg : Config) (S0 : Sources) (during : nat -> Env)
            (R : Orchestrator.ready),
       basescan_http S0 = http ->
       Orchestrator.setup L cfg S0 = Ret R ->
       let run := Orchestrator.main L addresses cfg S0 during in
       let u := StateManager.update_last_processed_block
                  (Orchestrator.network R) (Orchestrator.current_block R)
                  (state_file S0) (write_fault S0) in
       fst (Orchestrator.fetch L addresses R S0) = []
       /\ actions run
          = [Query (StateManager.get_last_processed_block
                      (Orchestrator.network R) (state_file S0))
                   (Orchestrator.current_block R)
                   (snd (Orchestrator.fetch L addresses R S0));
             SetBlock (Orchestrator.current_block R)]
       /\ processed_count run = 0
       /\ failed_count run = 0
       /\ state_after run = fst u
       /\ exit run = match snd u with Ret _ => Returned | Raised => Exit1 end
       /\ (exit run = Returned ->
           StateManager.get_last_processed_block
             (Orchestrator.network R) (state_after run)
           = JNum (Orchestrator.current_block R)).
Proof.
  intros Hdown r.
  destruct (events_when_down L addresses http api_key network base_url
              from_block to_block contract_address Hdown)
    as (Hnone & Hsent).
  fold r in Hnone, Hsent.
  split; [exact Hnone|]. split; [exact Hsent|]. split.
  - intros address fromBlock Hca Haddress Hhex rq.
    unfold r, Basescan.get_gist_submission_events.
    rewrite Hca.
    assert (Hne : String.eqb address "" = false)
      by (now apply String.eqb_neq).
    rewrite Hne. cbn [bind]. rewrite Hhex. cbn [bind].
    unfold Basescan._make_request.
    rewrite attempts_down by (intros n Hn; now apply Hdown).
    reflexivity.
  - intros cfg S0 during R Hhttp Hsetup run u.
    assert (Hfetch : fst (Orchestrator.fetch L addresses R S0) = []).
    { unfold Orchestrator.fetch. rewrite Hhttp.
      apply (events_when_down L addresses http). exact Hdown. }
    destruct (main_ready L addresses cfg S0 during Hsetup)
      as (p & f & more & Hmain & _ & _ & _ & Hempty & _).
    destruct (Hempty Hfetch) as (-> & -> & ->).
    unfold run. rewrite Hmain.
    match goal with
    | |- context [Orchestrator.advance R S0 ?acts 0 0] =>
        destruct (advance_sets R S0 acts 0 0)
          as (Hfile & Hexit & Hacts & Hpc & Hfc & Hget)
    end.
    repeat split; assumption.
Qed.

Lemma outage_reads_as_no_events_witness :
  (forall rq n, (n < 3)%nat -> Scenario.down rq n = Raised)
  /\ (
  let r := Basescan.get_gist_submission_events Scenario.L0 Basescan.source_addresses Scenario.down
             "KEY" "sepolia" "https://api-sepolia.basescan.org/api" (JNum 100) 105 (Some Scenario.submission0) in
  fst r = []
  /\ (snd r = [] \/ exists rq, snd r = [rq; rq; rq])
  /\ (forall address fromBlock,
        (Some Scenario.submission0) = Some address ->
        address <> "" ->
        py_hex (JNum 100) = Ret fromBlock ->
        let rq := {| req_url := "https://api-sepolia.basescan.org/api";
                     req_params :=
                       [("module", "logs");
                        ("action", "getLogs");
                        ("address", address);
                        ("topic0", Basescan.topic0);
                        ("fromBlock", fromBlock);
                        ("toBlock", HexString.of_Z 105);
                        ("apikey", "KEY")] |} in
        snd r = [rq; rq; rq])
  /\ forall (cfg : Config) (S0 : Sources) (during : nat -> Env)
            (R : Orchestrator.ready),
       basescan_http S0 = Scenario.down ->
       Orchestrator.setup Scenario.L0 cfg S0 = Ret R ->
       let run := Orchestrator.main Scenario.L0 Basescan.source_addresses cfg S0 during in
       let u := StateManager.update_last_processed_block
                  (Orchestrator.network R) (Orchestrator.current_block R)
                  (state_file S0) (write_fault S0) in
       fst (Orchestrator.fetch Scenario.L0 Basescan.source_addresses R S0) = []
       /\ actions run
          = [Query (StateManager.get_last_processed_block
                      (Orchestrator.network R) (state_file S0))
                   (Orchestrator.current_block R)
                   (snd (Orchestrator.fetch Scenario.L0 Basescan.source_addresses R S0));
             SetBlock (Orchestrator.current_block R)]
       /\ processed_count run = 0
       /\ failed_count run = 0
       /\ state_after run = fst u
       /\ exit run = match snd u with Ret _ => Returned | Raised => Exit1 end
       /\ (exit run = Returned ->
           StateManager.get_last_processed_block
             (Orchestrator.network R) (state_after run)
           = JNum (Orchestrator.current_block R))).
Proof.
  split; [reflexivity|].
  exact (@outage_reads_as_no_events Scenario.L0 Basescan.source_addresses
           Scenario.down "KEY" "sepolia"
           "https://api-sepolia.basescan.org/api" (JNum 100) 105
           (Some Scenario.submission0) (fun _ _ _ => eq_refl)).
Defined.

(** C6, as stated, fails: with 100 stored and a chain head of 50, a run
    that completes leaves 50 in the store. *)
Lemma checkpoint_decreases :
  let S0 := Scenario.sources (Scenario.stored 100) 50 Scenario.no_events in
  let r := Orchestrator.main Scenario.L0 Basescan.source_addresses
             Scenario.config0 S0
             (fun _ => Scenario.env Scenario.claim0_text) in
  exit r = Returned
  /\ StateManager.get_last_processed_block "sepolia" (state_file S0)
     = JNum 100
  /\ StateManager.get_last_processed_block "sepolia" (state_after r)
     = JNum 50
  /\ ~ (100 <= 50).
Proof. repeat split. lia. Qed.

(** C6, amended. A run that completes leaves in the store the chain head
    it read, whatever was stored before: the stored block does not
    decrease over a run exactly when the chain head of that run is not
    below the block stored before it. *)
Theorem checkpoint_follows_head
  (L : Lib) (addresses : list (string * string))
  (cfg : Config) (S0 : Sources) (during : nat -> Env) :
  let r := Orchestrator.main L addresses cfg S0 during in
  exit r = Returned ->
  exists R,
    Orchestrator.setup L cfg S0 = Ret R
    /\ block_number S0 = Ret (Orchestrator.current_block R)
    /\ StateManager.get_last_processed_block
         (Orchestrator.network R) (state_after r)
       = JNum (Orchestrator.current_block R)
    /\ forall prior,
         StateManager.get_last_processed_block
           (Orchestrator.network R) (state_file S0) = JNum prior ->
         (prior <= Orchestrator.current_block R <->
          exists b, StateManager.get_last_processed_block
                      (Orchestrator.network R) (state_after r) = JNum b
                    /\ prior <= b).
Proof.
  intros r Hexit.
  destruct (returned_ready L addresses cfg S0 during Hexit)
    as (R & Hsetup & Hhead).
  exists R. split; [exact Hsetup|]. split; [exact Hhead|].
  destruct (main_ready L addresses cfg S0 during Hsetup)
    as (p & f & more & Hmain & _).
  assert (Hget : StateManager.get_last_processed_block
                   (Orchestrator.network R) (state_after r)
                 = JNum (Orchestrator.current_block R)).
  { unfold r in *. rewrite Hmain in *.
    match goal with
    | |- context [Orchestrator.advance R S0 ?acts p f] =>
        destruct (advance_sets R S0 acts p f) as (_ & _ & _ & _ & _ & Hget)
    end.
    now apply Hget. }
  split; [exact Hget|].
  intros prior _. rewrite Hget. split.
  - intros Hle. now exists (Orchestrator.current_block R).
  - intros (b & Hb & Hle). injection Hb as <-. exact Hle.
Qed.

Lemma checkpoint_follows_head_witness :
  let S0 := Scenario.sources (Scenario.stored 100) 105 Scenario.no_events in
  let r := Orchestrator.main Scenario.L0 Basescan.source_addresses
             Scenario.config0 S0
             (fun _ => Scenario.env Scenario.claim0_text) in
  exit r = Returned
  /\ exists R,
       Orchestrator.setup Scenario.L0 Scenario.config0 S0 = Ret R
       /\ block_number S0 = Ret (Orchestrator.current_block R)
       /\ StateManager.get_last_processed_block
            (Orchestrator.network R) (state_after r)
          = JNum (Orchestrator.current_block R)
       /\ forall prior,
            StateManager.get_last_processed_block
              (Orchestrator.network R) (state_file S0) = JNum prior ->
            (prior <= Orchestrator.current_block R <->
             exists b, StateManager.get_last_processed_block
                         (Orchestrator.network R) (state_after r) = JNum b
                       /\ prior <= b).
Proof.
  intros S0 r. split; [reflexivity|].
  exact (@checkpoint_follows_head Scenario.L0 Basescan.source_addresses
           Scenario.config0 S0
           (fun _ => Scenario.env Scenario.claim0_text) eq_refl).
Defined.


(** * More about the code *)

(** ** Strings *)

Lemma length_append (s t : string) :
  String.length (s ++ t) = (String.length s + String.length t)%nat.
Proof. induction s as [|c s IH]; simpl; [reflexivity|now rewrite IH]. Qed.



(** ** The checkpoint store, further *)

Lemma set_set_same (V : Type) (k : string) (v1 v2 : V)
  (d : list (string * V)) :
  Dict.set k v2 (Dict.set k v1 d) = Dict.set k v2 d.
Proof.
  induction d as [|[k' v'] r IH]; simpl.
  - now rewrite String.eqb_refl.
  - destruct (String.eqb k k') eqn:Hk; simpl; rewrite Hk;
      [reflexivity|now rewrite IH].
Qed.

Lemma set_set_swap (V : Type) (k k' : string) (v1 v2 v' : V)
  (d : list (string * V)) :
  String.eqb k k' = false ->
  Dict.set k v2 (Dict.set k' v' (Dict.set k v1 d))
  = Dict.set k' v' (Dict.set k v2 d).
Proof.
  intros Hkk'.
  assert (Hk'k : String.eqb k' k = false)
    by (now rewrite String.eqb_sym).
  induction d as [|[k0 v0] r IH]; simpl.
  - repeat (first [rewrite Hk'k | rewrite String.eqb_refl]; simpl).
    reflexivity.
  - destruct (String.eqb k k0) eqn:Hk.
    + apply String.eqb_eq in Hk. subst k0. simpl.
      repeat (first [rewrite Hk'k | rewrite String.eqb_refl]; simpl).
      reflexivity.
    + simpl. destruct (String.eqb k' k0) eqn:Hk'; simpl;
        repeat (first [rewrite Hk | rewrite Hk']; simpl);
        [now rewrite set_set_same|now rewrite IH].
Qed.

(** X1. A set on a state file that is missing or holds a JSON object
    returns and leaves a record from which get gives the block just
    set; the record names the network, and every other key the file had
    is kept with its value. *)
Theorem set_then_get (network : string) (b : Z) (f : file) :
  writable f = true ->
  exists d,
    StateManager.update_last_processed_block network b f NoFault
    = (Holds (JObj d), Ret tt)
    /\ StateManager.get_last_processed_block network (Holds (JObj d))
       = JNum b
    /\ Dict.lookup "network" d = Some (JStr network)
    /\ forall k,
         String.eqb k "last_processed_block" = false ->
         String.eqb k "network" = false ->
         Dict.lookup k d = Dict.lookup k (record_of f).
Proof.
  intros Hw.
  assert (Hload : StateManager.load_and_stamp network b f
                  = Ret (Dict.set "network" (JStr network)
                           (Dict.set "last_processed_block" (JNum b)
                              (record_of f)))).
  { destruct f as [| |[| | | | |d]]; try discriminate; reflexivity. }
  eexists. split; [|split; [|split]].
  - unfold StateManager.update_last_processed_block,
      StateManager.update_trajectory.
    rewrite Hload. reflexivity.
  - eapply get_after_load_and_stamp. exact Hload.
  - apply lookup_set_same.
  - intros k Hk1 Hk2. now rewrite !lookup_set_other.
Qed.

Lemma set_then_get_witness :
  exists d,
    StateManager.update_last_processed_block "sepolia" 12345 Absent NoFault
    = (Holds (JObj d), Ret tt)
    /\ StateManager.get_last_processed_block "sepolia" (Holds (JObj d))
       = JNum 12345
    /\ Dict.lookup "network" d = Some (JStr "sepolia")
    /\ forall k,
         String.eqb k "last_processed_block" = false ->
         String.eqb k "network" = false ->
         Dict.lookup k d = Dict.lookup k (record_of Absent).
Proof. exact (@set_then_get "sepolia" 12345 Absent eq_refl). Defined.

Lemma set_raises_on_corrupt_file_aux
  (network : string) (b : Z) (f : file) (ft : fault) :
  writable f = false ->
  StateManager.update_last_processed_block network b f ft = (f, Raised)
  /\ StateManager.get_last_processed_block network f
     = JNum (StateManager._get_default_starting_block network).
Proof.
  intros Hw. split.
  - unfold StateManager.update_last_processed_block,
      StateManager.update_trajectory.
    destruct f as [| |[| | | | |d]]; try discriminate; reflexivity.
  - apply get_no_record.
    destruct f as [| |[| | | | |d]]; try discriminate; reflexivity.
Qed.

(** X2. On a state file that exists but is not a JSON object (illegible,
    or JSON of another kind), get answers with the network default while
    every set raises and leaves the file as it is, whatever block is
    set, so that no later set can repair the file. *)
Theorem set_raises_on_corrupt_file
  (network : string) (f : file) :
  writable f = false ->
  StateManager.get_last_processed_block network f
  = JNum (StateManager._get_default_starting_block network)
  /\ forall (b : Z) (ft : fault),
       StateManager.update_last_processed_block network b f ft = (f, Raised).
Proof.
  intros Hw. split.
  - exact (proj2 (set_raises_on_corrupt_file_aux network 0 f NoFault Hw)).
  - intros b ft.
    exact (proj1 (set_raises_on_corrupt_file_aux network b f ft Hw)).
Qed.

Lemma set_raises_on_corrupt_file_witness :
  StateManager.get_last_processed_block "mainnet" Illegible
  = JNum (StateManager._get_default_starting_block "mainnet")
  /\ forall (b : Z) (ft : fault),
       StateManager.update_last_processed_block "mainnet" b Illegible ft
       = (Illegible, Raised).
Proof.
  exact (@set_raises_on_corrupt_file "mainnet" Illegible eq_refl).
Defined.

(** X3. Of two sets that return, the last one wins: the file is the one
    a single set of the second block would have left. *)
Theorem last_set_wins (network : string) (b1 b2 : Z) (f : file) :
  writable f = true ->
  StateManager.update_last_processed_block network b2
    (fst (StateManager.update_last_processed_block network b1 f NoFault))
    NoFault
  = StateManager.update_last_processed_block network b2 f NoFault.
Proof.
  intros Hw.
  unfold StateManager.update_last_processed_block,
    StateManager.update_trajectory.
  destruct f as [| |[| | | | |d]]; try discriminate; simpl.
  - reflexivity.
  - rewrite (@set_set_swap json "last_processed_block" "network"
               (JNum b1) (JNum b2) (JStr network) d eq_refl).
    now rewrite set_set_same.
Qed.

Lemma last_set_wins_witness :
  StateManager.update_last_processed_block "sepolia" 7
    (fst (StateManager.update_last_processed_block "sepolia" 5
            (Scenario.stored 1) NoFault))
    NoFault
  = StateManager.update_last_processed_block "sepolia" 7
      (Scenario.stored 1) NoFault.
Proof. exact (@last_set_wins "sepolia" 5 7 (Scenario.stored 1) eq_refl). Defined.



(** ** The event source, further *)

(** X5. One call of [_make_request] sends the same request one to three
    times; when it raises it has sent it three times and the third
    attempt has raised (or its answer was not a dict). *)
Theorem make_request_bounds
  (L : Lib) (http : request -> nat -> exn json)
  (base_url : string) (params : list (string * string)) :
  let rq := {| req_url := base_url; req_params := params |} in
  let r := Basescan._make_request L http base_url params in
  (1 <= List.length (snd r) <= 3)%nat
  /\ (forall rq', In rq' (snd r) -> rq' = rq)
  /\ (fst r = Raised ->
      snd r = [rq; rq; rq]
      /\ (http rq 2%nat = Raised
          \/ exists data, http rq 2%nat = Ret data
                          /\ Basescan.rate_limited L data = Raised)).
Proof.
  intros rq r. split; [|split].
  - unfold r, Basescan._make_request. fold rq. simpl.
    destruct (http rq 0%nat) as [d0|]; cbn [bind];
      [destruct (Basescan.rate_limited L d0) as [[|]|]; cbn [bind]|];
      try (simpl; lia);
      (destruct (http rq 1%nat) as [d1|]; cbn [bind];
       [destruct (Basescan.rate_limited L d1) as [[|]|]; cbn [bind]|];
       try (simpl; lia);
       (destruct (http rq 2%nat) as [d2|]; cbn [bind];
        [destruct (Basescan.rate_limited L d2) as [[|]|]; cbn [bind]|];
        simpl; lia)).
  - intros rq'. apply attempts_sent.
  - unfold r, Basescan._make_request. fold rq. simpl.
    destruct (http rq 0%nat) as [d0|]; cbn [bind];
      [destruct (Basescan.rate_limited L d0) as [[|]|]; cbn [bind]|];
      try (simpl; discriminate);
      (destruct (http rq 1%nat) as [d1|]; cbn [bind];
       [destruct (Basescan.rate_limited L d1) as [[|]|]; cbn [bind]|];
       try (simpl; discriminate);
       (destruct (http rq 2%nat) as [d2|] eqn:H2; cbn [bind];
        [destruct (Basescan.rate_limited L d2) as [[|]|] eqn:Hr2;
         cbn [bind]|];
        simpl; try discriminate; intros _;
        (split; [reflexivity|]);
        solve [now left | right; exists d2; now split])).
Qed.

(** X6. The first attempt, among the three, whose answer is a dict and is
    not a rate-limit answer ends [_make_request]: that answer is
    returned and no further request is sent. *)
Theorem first_settled_answer
  (L : Lib) (http : request -> nat -> exn json)
  (base_url : string) (params : list (string * string))
  (k : nat) (data : json) :
  let rq := {| req_url := base_url; req_params := params |} in
  (k < 3)%nat ->
  (forall j, (j < k)%nat -> retried L http rq j) ->
  http rq k = Ret data ->
  Basescan.rate_limited L data = Ret false ->
  Basescan._make_request L http base_url params
  = (Ret data, repeat rq (S k)).
Proof.
  intros rq Hk Hretried Hdata Hsettled.
  unfold Basescan._make_request. fold rq.
  assert (Hstep : forall j left,
             retried L http rq j -> (j < 2)%nat ->
             Basescan.attempts L http rq (S left) j
             = (let (r, sent) := Basescan.attempts L http rq left (S j) in
                (r, rq :: sent))).
  { intros j left Hj Hlt. cbn [Basescan.attempts].
    unfold retried in Hj.
    assert (Hb : Nat.ltb j 2 = true) by (apply Nat.ltb_lt; lia).
    destruct (http rq j) as [d|]; cbn [bind]; rewrite ?Hb; [|reflexivity].
    destruct (Basescan.rate_limited L d) as [[|]|]; cbn [bind];
      rewrite ?Hb; try reflexivity.
    now elim Hj. }
  assert (Hend : forall left,
             Basescan.attempts L http rq (S left) k = (Ret data, [rq])).
  { intros left. cbn [Basescan.attempts].
    rewrite Hdata. cbn [bind]. rewrite Hsettled. reflexivity. }
  destruct k as [|[|[|k]]]; try lia.
  - apply Hend.
  - rewrite Hstep by (try apply Hretried; lia). now rewrite Hend.
  - rewrite Hstep by (try apply Hretried; lia).
    rewrite Hstep by (try apply Hretried; lia). now rewrite Hend.
Qed.

Lemma first_settled_answer_witness :
  let http := fun (_ : request) (n : nat) =>
                match n with
                | 1%nat => Ret (JObj [("status", JStr "1")])
                | _ => Raised
                end in
  Basescan._make_request Scenario.L0 http "u" []
  = (Ret (JObj [("status", JStr "1")]),
     repeat {| req_url := "u"; req_params := [] |} 2).
Proof.
  intros http.
  apply (@first_settled_answer Scenario.L0 http "u" [] 1%nat
           (JObj [("status", JStr "1")])).
  - lia.
  - intros j Hj. assert (j = 0%nat) by lia. subst j. exact I.
  - reflexivity.
  - reflexivity.
Defined.

(** X7. When the first two attempts are retried and the third answer is
    again a rate-limit answer, [_make_request] does not raise: it
    returns that rate-limit answer. *)
Theorem rate_limit_exhausted
  (L : Lib) (http : request -> nat -> exn json)
  (base_url : string) (params : list (string * string)) (data : json) :
  let rq := {| req_url := base_url; req_params := params |} in
  retried L http rq 0 ->
  retried L http rq 1 ->
  http rq 2%nat = Ret data ->
  Basescan.rate_limited L data = Ret true ->
  Basescan._make_request L http base_url params
  = (Ret data, [rq; rq; rq]).
Proof.
  intros rq H0 H1 H2 Hlimited.
  unfold Basescan._make_request. fold rq.
  unfold retried in H0, H1. simpl.
  destruct (http rq 0%nat) as [d0|]; cbn [bind];
    [destruct (Basescan.rate_limited L d0) as [[|]|]; cbn [bind];
     try (now elim H0)|];
    (destruct (http rq 1%nat) as [d1|]; cbn [bind];
     [destruct (Basescan.rate_limited L d1) as [[|]|]; cbn [bind];
      try (now elim H1)|];
     rewrite H2; cbn [bind]; rewrite Hlimited; reflexivity).
Qed.

Lemma rate_limit_exhausted_witness :
  let limited := JObj [("status", JStr "0");
                       ("message", JStr "NOTOK");
                       ("result", JStr "Max rate limit reached")] in
  let rq := {| req_url := "u"; req_params := [] |} in
  Basescan._make_request Scenario.L0 (fun _ _ => Ret limited) "u" []
  = (Ret limited, [rq; rq; rq]).
Proof.
  intros limited rq.
  apply (@rate_limit_exhausted Scenario.L0 (fun _ _ => Ret limited)
           "u" [] limited).
  - simpl. discriminate.
  - simpl. discriminate.
  - reflexivity.
  - reflexivity.
Defined.

(** The table of the source names no contract, whatever the network. *)
Lemma source_addresses_unconfigured (network : string) :
  Basescan._get_contract_address Basescan.source_addresses network = Raised.
Proof.
  unfold Basescan._get_contract_address, Basescan.source_addresses.
  simpl.
  destruct (String.eqb network "sepolia"); [reflexivity|].
  destruct (String.eqb network "mainnet"); reflexivity.
Qed.

(** X8. With the contract table as it is in the source (both entries the
    zero address), a run that gets to the fetch sends no log request,
    gets no event, sends no transaction, and sets the checkpoint to the
    chain head. *)
Theorem shipped_table_skips_every_block
  (L : Lib) (cfg : Config) (S0 : Sources) (during : nat -> Env)
  (R : Orchestrator.ready) :
  Orchestrator.setup L cfg S0 = Ret R ->
  let r := Orchestrator.main L Basescan.source_addresses cfg S0 during in
  Orchestrator.fetch L Basescan.source_addresses R S0 = ([], [])
  /\ actions r
     = [Query (StateManager.get_last_processed_block
                 (Orchestrator.network R) (state_file S0))
              (Orchestrator.current_block R) [];
        SetBlock (Orchestrator.current_block R)]
  /\ processed_count r = 0
  /\ failed_count r = 0.
Proof.
  intros Hsetup r.
  assert (Hfetch : Orchestrator.fetch L Basescan.source_addresses R S0
                   = ([], [])).
  { unfold Orchestrator.fetch, Basescan.get_gist_submission_events.
    now rewrite source_addresses_unconfigured. }
  split; [exact Hfetch|].
  unfold r, Orchestrator.main. rewrite Hsetup, Hfetch.
  match goal with
  | |- context [Orchestrator.advance R S0 ?acts 0 0] =>
      destruct (advance_sets R S0 acts 0 0) as (_ & _ & Hacts & Hp & Hf & _)
  end.
  now rewrite Hacts, Hp, Hf.
Qed.

Lemma shipped_table_skips_every_block_witness :
  let S0 := Scenario.sources (Scenario.stored 100) 105
              (Scenario.serving [Scenario.log0]) in
  let r := Orchestrator.main Scenario.L0 Basescan.source_addresses
             Scenario.config0 S0
             (fun _ => Scenario.env Scenario.claim0_text) in
  Orchestrator.fetch Scenario.L0 Basescan.source_addresses
    (Scenario.ready0 105) S0 = ([], [])
  /\ actions r = [Query (JNum 100) 105 []; SetBlock 105]
  /\ processed_count r = 0
  /\ failed_count r = 0.
Proof.
  intros S0 r.
  exact (@shipped_table_skips_every_block Scenario.L0 Scenario.config0 S0
           (fun _ => Scenario.env Scenario.claim0_text)
           (Scenario.ready0 105) eq_refl).
Defined.

Lemma parse_logs_in (L : Lib) (logs : list json) (event : dict) :
  In event (Basescan.parse_logs L logs) <->
  exists log, In log logs
              /\ Basescan._parse_gist_submitted_event L log = Some event.
Proof.
  induction logs as [|log rest IH]; simpl.
  - split; [contradiction|]. now intros (log & [] & _).
  - destruct (Basescan._parse_gist_submitted_event L log) as [e|] eqn:Hp;
      simpl; rewrite IH; split.
    + intros [->|(l & Hin & Hl)]; [now exists log; auto|].
      exists l. auto.
    + intros (l & [->|Hin] & Hl).
      * left. congruence.
      * right. now exists l.
    + intros (l & Hin & Hl). exists l. auto.
    + intros (l & [->|Hin] & Hl); [congruence|]. now exists l.
Qed.

(** X9. The events of a response are the logs that parse, in the order
    of the logs: a log that does not parse is left out and changes
    nothing for the others. *)
Theorem parse_logs_keeps_what_parses (L : Lib) (logs more : list json) :
  Basescan.parse_logs L (logs ++ more)
  = (Basescan.parse_logs L logs ++ Basescan.parse_logs L more)%list
  /\ (List.length (Basescan.parse_logs L logs) <= List.length logs)%nat
  /\ forall event,
       In event (Basescan.parse_logs L logs) <->
       exists log, In log logs
                   /\ Basescan._parse_gist_submitted_event L log = Some event.
Proof.
  split; [|split].
  - induction logs as [|log rest IH]; simpl; [reflexivity|].
    destruct (Basescan._parse_gist_submitted_event L log); simpl;
      now rewrite IH.
  - induction logs as [|log rest IH]; simpl; [lia|].
    destruct (Basescan._parse_gist_submitted_event L log); simpl; lia.
  - intros event. apply parse_logs_in.
Qed.

Lemma length_drop (n : nat) (s : string) :
  String.length (Str.drop n s) = (String.length s - n)%nat.
Proof.
  revert s. induction n as [|n IH]; intros s; simpl.
  - lia.
  - destruct s as [|c r]; simpl; [reflexivity|apply IH].
Qed.

(** X10. An event that comes out of the parser has five fields: its
    submitter is 0x followed by the last 40 characters of the log's
    second topic (42 characters in all for a topic of 40 or more), its
    transaction hash is the log's, its block number is the log's
    [blockNumber] read in base 16, and its [gist_url] is the literal
    placeholder. *)
Theorem parsed_event_fields (L : Lib) (log : json) (event : dict) :
  Basescan._parse_gist_submitted_event L log = Some event ->
  exists topics topic tx b number stamp,
    py_item "topics" log = Ret topics
    /\ Basescan.topic1 topics = Ret (JStr topic)
    /\ py_item "transactionHash" log = Ret tx
    /\ py_item "blockNumber" log = Ret (JStr b)
    /\ py_int L 16 b = Ret number
    /\ event = [("submitter", JStr ("0x" ++ Str.last_n 40 topic));
               ("gist_url", JStr "placeholder");
               ("timestamp", JNum stamp);
               ("transactionHash", tx);
               ("blockNumber", JNum number)]
    /\ String.length ("0x" ++ Str.last_n 40 topic)
       = (2 + Nat.min 40 (String.length topic))%nat.
Proof.
  unfold Basescan._parse_gist_submitted_event.
  destruct (py_item "topics" log) as [topics|] eqn:Htopics; [|discriminate].
  cbn [bind].
  destruct (Basescan.topic1 topics) as [t1|] eqn:Ht1; [|discriminate].
  cbn [bind]. destruct t1 as [| | |topic| |]; try discriminate.
  cbn [bind]. destruct (py_item "data" log) as [data|]; [|discriminate].
  cbn [bind].
  assert (Hrest :
    match (ts <- py_item "timeStamp" log ;;
           timestamp <- match ts with
                        | JStr t =>
                            if Str.startswith "0x" t
                            then py_int L 16 t else py_int L 10 t
                        | _ => Raised
                        end ;;
           tx <- py_item "transactionHash" log ;;
           bn <- py_item "blockNumber" log ;;
           blockNumber <- match bn with
                          | JStr b => py_int L 16 b
                          | _ => Raised
                          end ;;
           Ret (Some [("submitter", JStr ("0x" ++ Str.last_n 40 topic));
                      ("gist_url", JStr "placeholder");
                      ("timestamp", JNum timestamp);
                      ("transactionHash", tx);
                      ("blockNumber", JNum blockNumber)])) with
    | Ret (Some e) =>
        exists tx b number stamp,
          py_item "transactionHash" log = Ret tx
          /\ py_item "blockNumber" log = Ret (JStr b)
          /\ py_int L 16 b = Ret number
          /\ e = [("submitter", JStr ("0x" ++ Str.last_n 40 topic));
                  ("gist_url", JStr "placeholder");
                  ("timestamp", JNum stamp);
                  ("transactionHash", tx);
                  ("blockNumber", JNum number)]
    | _ => True
    end).
  { destruct (py_item "timeStamp" log) as [ts|]; cbn [bind]; [|exact I].
    destruct ts as [| | |t| |]; cbn [bind]; try exact I.
    match goal with
    | |- context [bind ?m _] => destruct m as [stamp|]
    end; cbn [bind]; [|exact I].
    destruct (py_item "transactionHash" log) as [tx|]; cbn [bind];
      [|exact I].
    destruct (py_item "blockNumber" log) as [bn|]; cbn [bind]; [|exact I].
    destruct bn as [| | |b| |]; cbn [bind]; try exact I.
    destruct (py_int L 16 b) as [number|] eqn:Hb; cbn [bind]; [|exact I].
    exists tx, b, number, stamp. repeat split. exact Hb. }
  assert (Hlen : String.length ("0x" ++ Str.last_n 40 topic)
                 = (2 + Nat.min 40 (String.length topic))%nat).
  { rewrite length_append. unfold Str.last_n. rewrite length_drop.
    change (String.length "0x") with 2%nat. lia. }
  destruct data; try discriminate; cbn [bind];
    match goal with
    | |- catch ?m None = Some event -> _ =>
        destruct m as [[e|]|]; cbn [catch]; try discriminate;
        intros H; injection H as <-;
        destruct Hrest as (tx & b & number & stamp & Htx & Hbn & Hb & He);
        exists topics, topic, tx, b, number, stamp;
        repeat split; assumption
    end.
Qed.

Lemma parsed_event_fields_witness :
  exists topics topic tx b number stamp,
    py_item "topics" Scenario.log0 = Ret topics
    /\ Basescan.topic1 topics = Ret (JStr topic)
    /\ py_item "transactionHash" Scenario.log0 = Ret tx
    /\ py_item "blockNumber" Scenario.log0 = Ret (JStr b)
    /\ py_int Scenario.L0 16 b = Ret number
    /\ [("submitter", JStr Scenario.signer0);
        ("gist_url", JStr "placeholder");
        ("timestamp", JNum Scenario.now0);
        ("transactionHash", Dict.get "transactionHash" JNull Scenario.event0);
        ("blockNumber", JNum 7000001)]
       = [("submitter", JStr ("0x" ++ Str.last_n 40 topic));
          ("gist_url", JStr "placeholder");
          ("timestamp", JNum stamp);
          ("transactionHash", tx);
          ("blockNumber", JNum number)]
    /\ String.length ("0x" ++ Str.last_n 40 topic)
       = (2 + Nat.min 40 (String.length topic))%nat.
Proof.
  exact (@parsed_event_fields Scenario.L0 Scenario.log0 _ eq_refl).
Defined.






(** ** The claim validator, further *)

Lemma check_fields_dict (fields : list string) (d : dict) :
  GistValidator.check_fields fields (JObj d)
  = Ret (forallb (filled d) fields).
Proof.
  induction fields as [|field rest IH]; [reflexivity|].
  cbn [GistValidator.check_fields GistValidator.py_in bind forallb].
  unfold filled at 1, py_item, Dict.item.
  destruct (Dict.lookup field d) as [v|]; cbn [negb of_option bind];
    [|reflexivity].
  destruct (truthy v); cbn [negb andb]; [exact IH|reflexivity].
Qed.

(** Only a dict gets through the loop over the required fields. *)
Lemma check_fields_not_dict (data : json) :
  GistValidator.check_fields GistValidator.required_fields data = Ret true ->
  exists d, data = JObj d.
Proof.
  destruct data as [| | |s|l|d]; try (simpl; discriminate).
  - simpl. destruct (Str.contains "message" s); simpl; discriminate.
  - simpl. destruct (existsb _ l); simpl; discriminate.
  - intros _. now exists d.
Qed.

(** What the structure check has found when it accepts. *)
Lemma structure_accepts (L : Lib) (data : json) :
  GistValidator._validate_json_structure L data = Ret true ->
  exists d address signature,
    data = JObj d
    /\ forallb (filled d) GistValidator.required_fields = true
    /\ Dict.lookup "address" d = Some address
    /\ is_address L address = true
    /\ Dict.lookup "signature" d = Some (JStr signature)
    /\ Str.startswith "0x" signature = true
    /\ String.length signature = 132%nat.
Proof.
  unfold GistValidator._validate_json_structure.
  destruct (GistValidator.check_fields GistValidator.required_fields data)
    as [[|]|] eqn:Hfields; cbn [bind negb]; try discriminate.
  destruct (check_fields_not_dict data Hfields) as (d & ->).
  rewrite check_fields_dict in Hfields. injection Hfields as Hfields.
  unfold py_item, Dict.item.
  destruct (Dict.lookup "address" d) as [address|] eqn:Ha;
    cbn [of_option bind]; [|discriminate].
  destruct (is_address L address) eqn:Hok; cbn [negb]; [|discriminate].
  destruct (Dict.lookup "signature" d) as [sg|] eqn:Hs;
    cbn [of_option bind]; [|discriminate].
  destruct sg as [| | |signature| |]; try discriminate.
  destruct (Str.startswith "0x" signature) eqn:Hp; cbn [negb orb];
    [|discriminate].
  destruct (Nat.eqb_spec (String.length signature) 132) as [Hlen|Hlen];
    cbn [negb]; [|discriminate].
  intros _. exists d, address, signature. repeat split; assumption.
Qed.

(** X12. The structure check accepts exactly the dicts in which the five
    required fields are there and not empty, [address] is an address
    for web3, and [signature] is a string that starts with 0x and has
    132 characters; what the signature is made of beyond that is not
    looked at. *)
Theorem structure_accepts_iff (L : Lib) (data : json) :
  GistValidator._validate_json_structure L data = Ret true <->
  exists d address signature,
    data = JObj d
    /\ forallb (filled d) GistValidator.required_fields = true
    /\ Dict.lookup "address" d = Some address
    /\ is_address L address = true
    /\ Dict.lookup "signature" d = Some (JStr signature)
    /\ Str.startswith "0x" signature = true
    /\ String.length signature = 132%nat.
Proof.
  split; [apply structure_accepts|].
  intros (d & address & signature & -> & Hfields & Ha & Hok & Hs & Hp & Hlen).
  unfold GistValidator._validate_json_structure.
  rewrite check_fields_dict, Hfields. cbn [bind negb].
  unfold py_item, Dict.item.
  rewrite Ha. cbn [of_option bind]. rewrite Hok. cbn [negb].
  rewrite Hs. cbn [of_option bind]. rewrite Hp, Hlen. reflexivity.
Qed.

(** In a claim that passes the structure check the address is not
    empty. *)
Lemma structure_address_filled (L : Lib) (doc address : json) :
  GistValidator._validate_json_structure L doc = Ret true ->
  py_item "address" doc = Ret address ->
  truthy address = true.
Proof.
  unfold GistValidator._validate_json_structure.
  destruct (GistValidator.check_fields GistValidator.required_fields doc)
    as [[|]|] eqn:Hfields; cbn [bind negb]; try discriminate.
  destruct (check_fields_not_dict doc Hfields) as (d & ->).
  rewrite check_fields_dict in Hfields. injection Hfields as Hfields.
  intros _. unfold py_item, Dict.item.
  cbn [GistValidator.required_fields forallb] in Hfields.
  unfold filled in Hfields.
  destruct (Dict.lookup "address" d) as [v|]; [|discriminate].
  cbn [of_option]. intros H. injection H as <-.
  destruct (truthy v); [reflexivity|].
  rewrite !andb_false_r in Hfields. discriminate.
Qed.

(** [s.lower()] is empty only for the empty string. *)
Lemma lower_empty (s : string) : Str.lower s = "" -> s = "".
Proof. destruct s; [reflexivity|discriminate]. Qed.

(** X13. For a claim that came out of fetch-and-validate, the second
    comparison accepts a submitter exactly when it is a string equal, in
    lower case, to the claim's own address: the signature has already
    been found to recover to that address. *)
Theorem second_check_is_claimed_address
  (L : Lib) (E : Env) (github : bool) (gist_url : json) :
  let doc := GistValidator.fetch_and_validate_gist L E github gist_url in
  truthy doc = true ->
  exists claimed,
    py_item "address" doc = Ret (JStr claimed)
    /\ forall submitter_address,
         GistValidator.verify_signature_matches_address
           L doc submitter_address = true
         <-> exists submitter,
               submitter_address = JStr submitter
               /\ Str.lower submitter = Str.lower claimed.
Proof.
  intros doc Hdoc.
  destruct (validated L E github gist_url Hdoc) as (Hstructure & Hsig & _).
  fold doc in Hstructure, Hsig.
  destruct (signature_of_claimed_address L doc Hsig)
    as (message & signature & recovered & claimed
        & Hm & Hs & Ha & Hr & Hlower).
  exists claimed. split; [exact Ha|].
  assert (Hclaimed : claimed <> "").
  { intros ->.
    pose proof (structure_address_filled L doc Hstructure Ha) as Hfilled.
    discriminate Hfilled. }
  assert (Hrecovered : String.eqb recovered "" = false).
  { apply String.eqb_neq. intros ->. apply Hclaimed.
    apply lower_empty. now rewrite <- Hlower. }
  intros submitter_address.
  unfold GistValidator.verify_signature_matches_address,
    GistValidator._recover_address_from_signature.
  rewrite Hm, Hs. cbn [bind]. rewrite Hr. cbn [bind catch].
  rewrite Hrecovered.
  destruct submitter_address as [| | |submitter| |]; cbn [catch];
    try (split; [discriminate|intros (s & H & _); discriminate]).
  rewrite String.eqb_eq, Hlower. split.
  - intros H. exists submitter. split; [reflexivity|now symmetry].
  - intros (s & H & Hs'). injection H as ->. now symmetry.
Qed.

Lemma second_check_is_claimed_address_witness :
  let doc := GistValidator.fetch_and_validate_gist Scenario.L0
               (Scenario.env Scenario.claim0_text) false
               (JStr Scenario.url0) in
  truthy doc = true
  /\ exists claimed,
       py_item "address" doc = Ret (JStr claimed)
       /\ forall submitter_address,
            GistValidator.verify_signature_matches_address
              Scenario.L0 doc submitter_address = true
            <-> exists submitter,
                  submitter_address = JStr submitter
                  /\ Str.lower submitter = Str.lower claimed.
Proof.
  intros doc. split; [reflexivity|].
  exact (@second_check_is_claimed_address Scenario.L0
           (Scenario.env Scenario.claim0_text) false
           (JStr Scenario.url0) eq_refl).
Defined.

(** ** Handling one event, further *)

(** What [create_attestation] does: nothing, the invocation alone, or
    the invocation and the sending of one call made of its arguments. *)
Lemma create_attestation_shape (E : Env)
  (eth_address github_username gist_data : json) :
  let r := AttestationContract.create_attestation
             E eth_address github_username gist_data in
  r = (false, [])
  \/ exists c,
       ethAddress c = eth_address
       /\ githubUsername c = github_username
       /\ (r = (false, [Invoke c])
           \/ (r = (false, [Invoke c; Send c])
               /\ (chain E (AttestationContract.attestation_registry_address E) c
                   = NotConfirmed
                   \/ exists status,
                        chain E (AttestationContract.attestation_registry_address E) c
                        = Receipt status /\ status <> 1))
           \/ (r = (true, [Invoke c; Send c])
               /\ chain E (AttestationContract.attestation_registry_address E) c
                  = Receipt 1)).
Proof.
  unfold AttestationContract.create_attestation.
  destruct (eq_str _ _); [now left|].
  destruct (py_get "gist_url" (JStr "unknown") gist_data) as [gist_url|];
    [|now left].
  set (c := {| ethAddress := eth_address;
               githubUsername := github_username;
               gistUrl := gist_url |}).
  destruct (chain E (AttestationContract.attestation_registry_address E) c)
    as [| | |status] eqn:Hchain; [now left| | |];
    right; exists c; (split; [reflexivity|]); (split; [reflexivity|]).
  - now left.
  - right. left. split; [reflexivity|now left].
  - destruct (Z.eqb_spec status 1) as [->|Hne].
    + right. right. now split.
    + right. left. split; [reflexivity|]. right. now exists status.
Qed.

(** An event is either dropped without any action or handed to
    [create_attestation] with the address and the username of its
    validated claim. *)
Lemma process_single_event_cases
  (L : Lib) (E : Env) (event : dict) (github : bool) :
  let doc := GistValidator.fetch_and_validate_gist L E github
               (Dict.get "gist_url" JNull event) in
  let r := Orchestrator.process_single_event L E event github in
  r = (false, [])
  \/ (truthy doc = true
      /\ GistValidator.verify_signature_matches_address
           L doc (Dict.get "submitter" JNull event) = true
      /\ exists address username,
           py_item "address" doc = Ret address
           /\ py_item "github_username" doc = Ret username
           /\ r = AttestationContract.create_attestation
                    E address username doc).
Proof.
  intros doc r.
  pose proof (acted_after_checks L E event github) as Hacted.
  cbv zeta in Hacted. fold doc r in Hacted.
  assert (Hcases : r = (false, []) \/ fst r = true \/ snd r <> []).
  { destruct r as [[|] [|a rest]]; simpl; auto; right; right; discriminate. }
  destruct Hcases as [Hnone|Hsome]; [now left|right; now apply Hacted].
Qed.

(** X14. Whatever is invoked or sent for an event attests the address of
    the validated claim, and that address is, in lower case, the
    submitter of the event. *)
Theorem attested_address_is_submitter
  (L : Lib) (E : Env) (event : dict) (github : bool) (c : call) :
  let r := Orchestrator.process_single_event L E event github in
  In (Invoke c) (snd r) \/ In (Send c) (snd r) ->
  exists claimed submitter,
    ethAddress c = JStr claimed
    /\ py_item "address"
         (GistValidator.fetch_and_validate_gist L E github
            (Dict.get "gist_url" JNull event)) = Ret (JStr claimed)
    /\ Dict.get "submitter" JNull event = JStr submitter
    /\ Str.lower claimed = Str.lower submitter.
Proof.
  intros r Hin.
  destruct (process_single_event_cases L E event github)
    as [Hnone|(Hdoc & Hverify & address & username & Ha & Hu & Hr)].
  { unfold r in Hin. rewrite Hnone in Hin. simpl in Hin. tauto. }
  destruct (validated L E github _ Hdoc) as (_ & Hsig & _).
  destruct (signature_of_claimed_address L _ Hsig)
    as (message & signature & recovered & claimed
        & Hm & Hs & Ha' & Hrec & Hlower).
  destruct (signature_of_submitter L _ _ Hverify)
    as (message' & signature' & recovered' & submitter
        & Hm' & Hs' & Hrec' & Hsub & Hlower').
  rewrite Hm in Hm'. injection Hm' as <-.
  rewrite Hs in Hs'. injection Hs' as <-.
  rewrite Hrec in Hrec'. injection Hrec' as <-.
  rewrite Ha in Ha'. injection Ha' as ->.
  exists claimed, submitter.
  split; [|split; [exact Ha|split; [exact Hsub|congruence]]].
  unfold r in Hin. rewrite Hr in Hin.
  destruct (create_attestation_shape E (JStr claimed) username
              (GistValidator.fetch_and_validate_gist L E github
                 (Dict.get "gist_url" JNull event)))
    as [H0|(c' & Hc & _ & [H1|[(H1 & _)|(H1 & _)]])];
    rewrite ?H0, ?H1 in Hin; simpl in Hin;
    intuition (try discriminate; congruence).
Qed.

Lemma attested_address_is_submitter_witness :
  let c := {| ethAddress := JStr Scenario.signer0;
              githubUsername := JStr "alice";
              gistUrl := JStr "unknown" |} in
  exists claimed submitter,
    ethAddress c = JStr claimed
    /\ py_item "address"
         (GistValidator.fetch_and_validate_gist Scenario.L0
            (Scenario.env Scenario.claim0_text) false
            (Dict.get "gist_url" JNull Scenario.event0))
       = Ret (JStr claimed)
    /\ Dict.get "submitter" JNull Scenario.event0 = JStr submitter
    /\ Str.lower claimed = Str.lower submitter.
Proof.
  intros c.
  apply (@attested_address_is_submitter Scenario.L0
           (Scenario.env Scenario.claim0_text) Scenario.event0 false c).
  right. right. left. reflexivity.
Defined.

(** X15. For one event at most one transaction is invoked and at most
    one is sent, the sent one being the invoked one.  The event counts
    as a success only when that transaction was sent and its receipt
    has status 1; a transaction that was sent but whose confirmation
    did not come, or came with another status, leaves the event counted
    as failed. *)
Theorem one_transaction_per_event
  (L : Lib) (E : Env) (event : dict) (github : bool) :
  let r := Orchestrator.process_single_event L E event github in
  let registry := AttestationContract.attestation_registry_address E in
  r = (false, [])
  \/ exists c,
       r = (false, [Invoke c])
       \/ (r = (false, [Invoke c; Send c])
           /\ (chain E registry c = NotConfirmed
               \/ exists status,
                    chain E registry c = Receipt status /\ status <> 1))
       \/ (r = (true, [Invoke c; Send c])
           /\ chain E registry c = Receipt 1).
Proof.
  intros r registry.
  destruct (process_single_event_cases L E event github)
    as [Hnone|(_ & _ & address & username & _ & _ & Hr)];
    [now left|].
  fold r in Hr. rewrite Hr.
  destruct (create_attestation_shape E address username
              (GistValidator.fetch_and_validate_gist L E github
                 (Dict.get "gist_url" JNull event)))
    as [H0|(c & _ & _ & H)]; [now left|].
  right. exists c. exact H.
Qed.

(** X16. When the deployment file is missing, is illegible, or does not
    name both contracts (the registry and the submission contract), the
    writer holds the zero address as registry, and no event leads to a
    transaction or counts as a success. *)
Theorem no_deployment_no_attestation
  (L : Lib) (E : Env) (event : dict) (github : bool) :
  names_both_contracts (deployment E) = false ->
  AttestationContract.attestation_registry_address E
  = JStr AttestationContract.placeholder
  /\ Orchestrator.process_single_event L E event github = (false, []).
Proof.
  intros Hdeployment.
  assert (Hregistry : AttestationContract.attestation_registry_address E
                      = JStr AttestationContract.placeholder).
  { unfold AttestationContract.attestation_registry_address.
    unfold names_both_contracts in Hdeployment.
    destruct (deployment E) as [| |j]; try reflexivity.
    cbn [bind].
    destruct (py_item "contracts" j) as [contracts|]; cbn [bind catch];
      [|reflexivity].
    destruct (py_item "AttestationRegistry" contracts) as [registry|];
      cbn [bind catch]; [|reflexivity].
    destruct (py_item "GistSubmission" contracts); cbn [bind catch];
      [discriminate|reflexivity]. }
  split; [exact Hregistry|].
  destruct (process_single_event_cases L E event github)
    as [Hnone|(_ & _ & address & username & _ & _ & Hr)];
    [exact Hnone|].
  rewrite Hr. unfold AttestationContract.create_attestation.
  now rewrite Hregistry.
Qed.

Lemma no_deployment_no_attestation_witness :
  let E := {| time_now := Scenario.now0;
              github_get_gist :=
                github_get_gist (Scenario.env Scenario.claim0_text);
              public_get_gist :=
                public_get_gist (Scenario.env Scenario.claim0_text);
              deployment :=
                Holds (JObj [("contracts",
                              JObj [("AttestationRegistry",
                                     JStr Scenario.registry0)])]);
              chain := fun _ _ => Receipt 1 |} in
  AttestationContract.attestation_registry_address E
  = JStr AttestationContract.placeholder
  /\ Orchestrator.process_single_event Scenario.L0 E Scenario.event0 false
     = (false, []).
Proof.
  intros E.
  exact (@no_deployment_no_attestation Scenario.L0 E Scenario.event0 false
           eq_refl).
Defined.

(** ** The orchestrator, further *)

(** X17. The loop of [main] tallies exactly: the processed count grows by
    the number of steps that returned true, the failed count by the
    number of all the others (those that returned false and those that
    raised), and what was done is what the steps did, in the order of
    the events. *)
Theorem process_batch_tally
  (step : nat -> dict -> exn (bool * list action)) (events : list dict) :
  forall (i : nat) (processed failed : Z) (done : list action),
    let os := outcomes step i events in
    Orchestrator.process_batch step i events processed failed done
    = (processed + Z.of_nat (List.length (filter succeeded os)),
       failed + Z.of_nat (List.length
                            (filter (fun o => negb (succeeded o)) os)),
       (done ++ List.concat (map acts_of os))%list).
Proof.
  induction events as [|event rest IH]; intros i processed failed done.
  - simpl. rewrite app_nil_r, !Z.add_0_r. reflexivity.
  - cbn [Orchestrator.process_batch outcomes].
    destruct (step i event) as [[[|] acts]|]; rewrite IH;
      cbn [filter succeeded negb map acts_of List.concat List.length];
      rewrite ?app_assoc, ?app_nil_l, ?app_nil_r; f_equal;
      apply f_equal2; lia.
Qed.

(** X18. A run is fatal at its start, before the state file is read or
    anything is queried, when RPC_URL, PRIVATE_KEY or BASESCAN_API_KEY
    is unset or empty, or when NETWORK names anything but mainnet or
    sepolia: it exits with status 1 and leaves the state file as it
    was. *)
Theorem fatal_at_startup
  (L : Lib) (addresses : list (string * string))
  (cfg : Config) (S0 : Sources) (during : nat -> Env) :
  Orchestrator.set_and_nonempty (RPC_URL cfg) = None
  \/ Orchestrator.set_and_nonempty (PRIVATE_KEY cfg) = None
  \/ Orchestrator.set_and_nonempty (BASESCAN_API_KEY cfg) = None
  \/ (exists n, NETWORK cfg = Some n /\ n <> "mainnet" /\ n <> "sepolia") ->
  Orchestrator.main L addresses cfg S0 during = stopped S0.
Proof.
  intros H.
  assert (Hsetup : Orchestrator.setup L cfg S0 = Raised).
  { unfold Orchestrator.setup.
    destruct (Orchestrator.set_and_nonempty (RPC_URL cfg)) as [rpc|];
      [|reflexivity].
    destruct (Orchestrator.set_and_nonempty (PRIVATE_KEY cfg)) as [key|];
      [|reflexivity].
    destruct (Orchestrator.set_and_nonempty (BASESCAN_API_KEY cfg)) as [api|];
      [|reflexivity].
    destruct H as [H|[H|[H|(n & Hn & Hm & Hs)]]]; try discriminate.
    rewrite Hn.
    destruct (valid_key L key); cbn [negb]; [|reflexivity].
    assert (Hinit : Basescan.init n = Raised).
    { unfold Basescan.init, Basescan.endpoints. simpl.
      destruct (String.eqb_spec n "mainnet"); [contradiction|].
      destruct (String.eqb_spec n "sepolia"); [contradiction|].
      reflexivity. }
    now rewrite Hinit. }
  unfold Orchestrator.main. now rewrite Hsetup.
Qed.

Lemma fatal_at_startup_witness :
  let cfg := {| NETWORK := Some "goerli";
                RPC_URL := RPC_URL Scenario.config0;
                PRIVATE_KEY := PRIVATE_KEY Scenario.config0;
                BASESCAN_API_KEY := Some "KEY";
                GITHUB_TOKEN := None |} in
  let S0 := Scenario.sources Absent 105 Scenario.no_events in
  Orchestrator.main Scenario.L0 Basescan.source_addresses cfg S0
    (fun _ => Scenario.env Scenario.claim0_text)
  = stopped S0.
Proof.
  intros cfg S0.
  apply fatal_at_startup.
  right. right. right. exists "goerli".
  split; [reflexivity|split; discriminate].
Defined.

(** A set returns exactly on a writable file written without fault. *)
Lemma update_returns_iff (network : string) (b : Z) (f : file) (ft : fault) :
  snd (StateManager.update_last_processed_block network b f ft) = Ret tt
  <-> writable f = true /\ ft = NoFault.
Proof.
  unfold StateManager.update_last_processed_block. cbn [snd].
  destruct f as [| |[| | | | |d]]; simpl;
    try (split; [discriminate|intros [H _]; discriminate]);
    destruct ft; simpl; split; try discriminate; auto;
    intros [_ H]; discriminate.
Qed.

(** X19. A run returns normally exactly when it got through its setup,
    its state file is missing or holds a JSON object, and the file is
    rewritten without fault; how many events failed plays no part. *)
Theorem returns_iff
  (L : Lib) (addresses : list (string * string))
  (cfg : Config) (S0 : Sources) (during : nat -> Env) :
  exit (Orchestrator.main L addresses cfg S0 during) = Returned
  <-> (exists R, Orchestrator.setup L cfg S0 = Ret R)
      /\ writable (state_file S0) = true
      /\ write_fault S0 = NoFault.
Proof.
  split.
  - intros Hexit.
    destruct (returned_ready L addresses cfg S0 during Hexit)
      as (R & Hsetup & _).
    split; [now exists R|].
    destruct (main_ready L addresses cfg S0 during Hsetup)
      as (p & f & more & Hmain & _).
    rewrite Hmain in Hexit.
    match type of Hexit with
    | context [Orchestrator.advance R S0 ?acts p f] =>
        destruct (advance_sets R S0 acts p f) as (_ & He & _)
    end.
    rewrite He in Hexit.
    apply (update_returns_iff (Orchestrator.network R)
             (Orchestrator.current_block R)).
    destruct (snd _) as [[]|]; [reflexivity|discriminate].
  - intros ((R & Hsetup) & Hw & Hft).
    destruct (main_ready L addresses cfg S0 during Hsetup)
      as (p & f & more & Hmain & _).
    rewrite Hmain.
    match goal with
    | |- context [Orchestrator.advance R S0 ?acts p f] =>
        destruct (advance_sets R S0 acts p f) as (_ & He & _)
    end.
    rewrite He.
    rewrite (proj2 (update_returns_iff (Orchestrator.network R)
                      (Orchestrator.current_block R)
                      (state_file S0) (write_fault S0)) (conj Hw Hft)).
    reflexivity.
Qed.



(** ** Fetching and validating, as a whole *)

(** What the freshness check has found when it accepts. *)
Lemma timestamp_accepts (L : Lib) (E : Env) (data : json) (hours : Z) :
  GistValidator._validate_timestamp L E data hours = true ->
  exists ts t,
    py_item "timestamp" data = Ret ts
    /\ py_int_of L ts = Ret t
    /\ time_now E - t <= hours * 3600
    /\ t <= time_now E + 300.
Proof.
  unfold GistValidator._validate_timestamp.
  destruct (py_item "timestamp" data) as [ts|] eqn:Hts; cbn [bind catch];
    [|discriminate].
  destruct (py_int_of L ts) as [t|] eqn:Ht; cbn [bind catch];
    [|discriminate].
  destruct (Z.gtb_spec (time_now E - t) (hours * 3600)); cbn [catch];
    [discriminate|].
  destruct (Z.gtb_spec t (time_now E + 300)); cbn [catch]; [discriminate|].
  intros _. exists ts, t.
  split; [reflexivity|]. split; [exact Ht|]. split; lia.
Qed.

(** X21. What [fetch_and_validate_gist] returns is [None] or the fetched
    document itself, unchanged: a dict, fetched for the gist id found
    in the URL, with the five required fields filled, an address web3
    accepts, a 132-character signature in 0x that recovers to that
    address, and a timestamp at most 24 hours old and at most 300
    seconds ahead of the clock. *)
Theorem validated_claim
  (L : Lib) (E : Env) (github : bool) (gist_url : json) :
  let doc := GistValidator.fetch_and_validate_gist L E github gist_url in
  doc = JNull
  \/ exists gist_id d address signature message recovered ts t,
       GistValidator._extract_gist_id L gist_url = Some gist_id
       /\ doc = GistValidator._fetch_gist_content L E github gist_id
       /\ doc = JObj d
       /\ forallb (filled d) GistValidator.required_fields = true
       /\ Dict.lookup "address" d = Some (JStr address)
       /\ is_address L (JStr address) = true
       /\ Dict.lookup "signature" d = Some (JStr signature)
       /\ Str.startswith "0x" signature = true
       /\ String.length signature = 132%nat
       /\ Dict.lookup "message" d = Some message
       /\ recover_message L message (JStr signature) = Ret recovered
       /\ Str.lower recovered = Str.lower address
       /\ Dict.lookup "timestamp" d = Some ts
       /\ py_int_of L ts = Ret t
       /\ time_now E - t <= 86400
       /\ t <= time_now E + 300.
Proof.
  intros doc.
  destruct (truthy doc) eqn:Hdoc.
  2:{ left. unfold doc in *.
      unfold GistValidator.fetch_and_validate_gist in *.
      destruct (GistValidator._extract_gist_id L gist_url) as [gist_id|];
        [|reflexivity].
      destruct (truthy (GistValidator._fetch_gist_content L E github gist_id))
        eqn:Hfetched; cbn [negb] in *; [|reflexivity].
      destruct (GistValidator._validate_json_structure L _) as [[|]|];
        cbn [bind negb catch] in *; try reflexivity.
      destruct (GistValidator._validate_signature L _);
        cbn [negb catch] in *; [|reflexivity].
      destruct (GistValidator._validate_timestamp L E _ 24);
        cbn [negb catch] in *; [|reflexivity].
      congruence. }
  right.
  destruct (validated L E github gist_url Hdoc) as (Hstructure & Hsig & Htime).
  fold doc in Hstructure, Hsig, Htime.
  assert (Hfetched : exists gist_id,
             GistValidator._extract_gist_id L gist_url = Some gist_id
             /\ doc = GistValidator._fetch_gist_content L E github gist_id).
  { unfold doc in *. unfold GistValidator.fetch_and_validate_gist in *.
    destruct (GistValidator._extract_gist_id L gist_url) as [gist_id|];
      [|discriminate].
    exists gist_id. split; [reflexivity|].
    destruct (truthy (GistValidator._fetch_gist_content L E github gist_id));
      cbn [negb] in *; [|discriminate].
    destruct (GistValidator._validate_json_structure L _) as [[|]|];
      cbn [bind negb catch] in *; try discriminate.
    destruct (GistValidator._validate_signature L _);
      cbn [negb catch] in *; [|discriminate].
    destruct (GistValidator._validate_timestamp L E _ 24);
      cbn [negb catch] in *; [reflexivity|discriminate]. }
  destruct Hfetched as (gist_id & Hid & Hfetch).
  destruct (structure_accepts L doc Hstructure)
    as (d & address & signature & Hd & Hfields & Ha & Hok & Hs & Hp & Hlen).
  destruct (signature_of_claimed_address L doc Hsig)
    as (message & sg & recovered & claimed & Hm & Hs' & Ha' & Hr & Hlower).
  destruct (timestamp_accepts L E doc 24 Htime) as (ts & t & Hts & Ht & Hold & Hnew).
  rewrite Hd in Hm, Hs', Ha', Hts. unfold py_item, Dict.item in *.
  rewrite Ha in Ha'. injection Ha' as ->.
  rewrite Hs in Hs'. injection Hs' as <-.
  destruct (Dict.lookup "message" d) as [m|] eqn:Hmsg; [|discriminate].
  injection Hm as ->.
  destruct (Dict.lookup "timestamp" d) as [ts'|] eqn:Hstamp; [|discriminate].
  injection Hts as ->.
  exists gist_id, d, claimed, signature, message, recovered, ts, t.
  repeat split; try assumption; lia.
Qed.

(** ** Fetching the gist *)

Lemma first_file_skips (L : Lib)
  (before after : list (string * option string))
  (filename : string) (content : option string) :
  forallb (fun f => negb (named_for_client (fst f))) before = true ->
  named_for_client filename = true ->
  GistValidator.first_file L (before ++ (filename, content) :: after)
  = (c <- of_option content ;; v <- json_loads L c ;; Ret (Some v)).
Proof.
  intros Hbefore Hname.
  induction before as [|[name0 content0] rest IH]; simpl in *.
  - unfold named_for_client in Hname. now rewrite Hname.
  - apply andb_true_iff in Hbefore. destruct Hbefore as [H0 Hrest].
    unfold named_for_client in H0. apply negb_true_iff in H0.
    rewrite H0. now apply IH.
Qed.

Lemma first_file_none (L : Lib) (files : list (string * option string)) :
  forallb (fun f => negb (named_for_client (fst f))) files = true ->
  GistValidator.first_file L files = Ret None.
Proof.
  induction files as [|[name0 content0] rest IH]; simpl; [reflexivity|].
  intros H. apply andb_true_iff in H. destruct H as [H0 Hrest].
  unfold named_for_client in H0. apply negb_true_iff in H0.
  rewrite H0. now apply IH.
Qed.

(** X22. With an authenticated client, the first file of the gist whose
    name ends in .json or contains verification decides the fetch: the
    result is what [json.loads] makes of its content, and [None] when
    that raises or the file has no content; the files after it and the
    public API are not consulted. *)
Theorem client_first_match_decides
  (L : Lib) (E : Env) (gist_id : string)
  (before after : list (string * option string))
  (filename : string) (content : option string) :
  github_get_gist E gist_id
  = Ret (before ++ (filename, content) :: after)%list ->
  forallb (fun f => negb (named_for_client (fst f))) before = true ->
  named_for_client filename = true ->
  GistValidator._fetch_gist_content L E true gist_id
  = match content with
    | Some text => catch (json_loads L text) JNull
    | None => JNull
    end.
Proof.
  intros Hfiles Hbefore Hname.
  unfold GistValidator._fetch_gist_content.
  rewrite Hfiles. cbn [bind].
  rewrite (first_file_skips L before after filename content Hbefore Hname).
  destruct content as [text|]; cbn [of_option bind catch]; [|reflexivity].
  destruct (json_loads L text); reflexivity.
Qed.

Lemma client_first_match_decides_witness :
  let E := {| time_now := Scenario.now0;
              github_get_gist := fun _ =>
                Ret [("README.md", Some "hello");
                     ("claim.json", Some Scenario.claim0_text);
                     ("other.json", Some "{")];
              public_get_gist := fun _ => Raised;
              deployment := Absent;
              chain := fun _ _ => NoContract |} in
  GistValidator._fetch_gist_content Scenario.L0 E true "0123abcd"
  = JObj Scenario.claim0.
Proof.
  intros E.
  exact (@client_first_match_decides Scenario.L0 E "0123abcd"
           [("README.md", Some "hello")] [("other.json", Some "{")]
           "claim.json" (Some Scenario.claim0_text)
           eq_refl eq_refl eq_refl).
Defined.

(** X23. With an authenticated client that lists no file whose name ends
    in .json or contains verification, the fetch is the fetch without a
    client: the public API alone decides. *)
Theorem client_falls_back_to_public_api
  (L : Lib) (E : Env) (gist_id : string)
  (files : list (string * option string)) :
  github_get_gist E gist_id = Ret files ->
  forallb (fun f => negb (named_for_client (fst f))) files = true ->
  GistValidator._fetch_gist_content L E true gist_id
  = GistValidator._fetch_gist_content L E false gist_id.
Proof.
  intros Hfiles Hnone.
  unfold GistValidator._fetch_gist_content.
  rewrite Hfiles. cbn [bind].
  now rewrite (first_file_none L files Hnone).
Qed.

Lemma client_falls_back_to_public_api_witness :
  let E := {| time_now := Scenario.now0;
              github_get_gist := fun _ =>
                Ret [("attestation.txt", Some Scenario.claim0_text)];
              public_get_gist :=
                public_get_gist (Scenario.env Scenario.claim0_text);
              deployment := Absent;
              chain := fun _ _ => NoContract |} in
  GistValidator._fetch_gist_content Scenario.L0 E true "0123abcd"
  = GistValidator._fetch_gist_content Scenario.L0 E false "0123abcd".
Proof.
  intros E.
  exact (@client_falls_back_to_public_api Scenario.L0 E "0123abcd"
           [("attestation.txt", Some Scenario.claim0_text)]
           eq_refl eq_refl).
Defined.

(** ** The gist id of a URL *)

Lemma append_assoc (a b c : string) : (a ++ b) ++ c = a ++ (b ++ c).
Proof. induction a as [|x a IH]; simpl; [reflexivity|now rewrite IH]. Qed.

Lemma append_empty_r (a : string) : a ++ "" = a.
Proof. induction a as [|x a IH]; simpl; [reflexivity|now rewrite IH]. Qed.

Lemma rev_acc_append (s acc : string) :
  Str.rev_acc s acc = Str.rev_acc s "" ++ acc.
Proof.
  revert acc. induction s as [|c r IH]; intros acc; simpl; [reflexivity|].
  rewrite (IH (String c acc)), (IH (String c "")), append_assoc.
  reflexivity.
Qed.

Lemma rev_append (a b : string) : Str.rev (a ++ b) = Str.rev b ++ Str.rev a.
Proof.
  unfold Str.rev. induction a as [|c a IH]; simpl.
  - now rewrite append_empty_r.
  - rewrite (rev_acc_append (a ++ b)), IH, (rev_acc_append a (String c "")).
    now rewrite append_assoc.
Qed.

Lemma rev_involutive (s : string) : Str.rev (Str.rev s) = s.
Proof.
  induction s as [|c r IH]; [reflexivity|].
  change (String c r) with (String c "" ++ r) at 1.
  rewrite rev_append, rev_append, IH. reflexivity.
Qed.

Lemma free_of_append (c : ascii) (a b : string) :
  free_of c (a ++ b) = (free_of c a && free_of c b)%bool.
Proof.
  induction a as [|d a IH]; simpl; [reflexivity|].
  now rewrite IH, andb_assoc.
Qed.

Lemma free_of_rev (c : ascii) (s : string) :
  free_of c (Str.rev s) = free_of c s.
Proof.
  induction s as [|d r IH]; [reflexivity|].
  change (String d r) with (String d "" ++ r) at 1.
  rewrite rev_append, free_of_append, IH. simpl.
  rewrite andb_true_r. apply andb_comm.
Qed.

(** Nothing is stripped from a string that does not start with [c]. *)
Lemma lstrip_head (c : ascii) (s t : string) :
  s <> "" -> free_of c s = true -> Str.lstrip c (s ++ t) = s ++ t.
Proof.
  destruct s as [|d r]; [now intros H|]. intros _.
  cbn [free_of append Str.lstrip].
  destruct (Ascii.eqb c d); [discriminate|reflexivity].
Qed.

Lemma split_acc_free (c : ascii) (a rest cur : string) :
  free_of c a = true ->
  Str.split_acc c (a ++ rest) cur
  = Str.split_acc c rest (Str.rev_acc a cur).
Proof.
  revert cur. induction a as [|d a IH]; intros cur; simpl; [reflexivity|].
  destruct (Ascii.eqb c d); [discriminate|]. simpl. apply IH.
Qed.

(** X24. For a URL whose host is gist.github.com and whose path is
    /user/id, with a user and an id that are not empty and contain no
    slash, [_extract_gist_id] returns the id when it matches the
    hexadecimal pattern and [None] when it does not; the user is not
    looked at. *)
Theorem canonical_gist_url
  (L : Lib) (u user gist_id : string) :
  urlparse L u = Ret ("gist.github.com", "/" ++ user ++ "/" ++ gist_id) ->
  user <> "" -> gist_id <> "" ->
  free_of "/" user = true -> free_of "/" gist_id = true ->
  GistValidator._extract_gist_id L (JStr u)
  = if Str.match_hex gist_id then Some gist_id else None.
Proof.
  intros Hparse Huser Hid Hfu Hfi.
  assert (Hstrip : Str.strip "/" ("/" ++ user ++ "/" ++ gist_id)
                   = user ++ "/" ++ gist_id).
  { unfold Str.strip.
    assert (H1 : Str.lstrip "/" ("/" ++ user ++ "/" ++ gist_id)
                 = user ++ "/" ++ gist_id).
    { change ("/" ++ user ++ "/" ++ gist_id)
        with (String "/" (user ++ "/" ++ gist_id)).
      cbn [Str.lstrip]. change (Ascii.eqb "/" "/") with true. cbv iota.
      now apply lstrip_head. }
    rewrite H1.
    rewrite (rev_append user), (rev_append "/" gist_id).
    rewrite append_assoc.
    assert (H2 : Str.lstrip "/" (Str.rev gist_id ++ Str.rev "/" ++ Str.rev user)
                 = Str.rev gist_id ++ Str.rev "/" ++ Str.rev user).
    { apply lstrip_head.
      - intros H. apply Hid. now rewrite <- (rev_involutive gist_id), H.
      - now rewrite free_of_rev. }
    rewrite H2, <- append_assoc, <- rev_append, <- rev_append.
    apply rev_involutive. }
  assert (Hsplit : Str.split "/" (user ++ "/" ++ gist_id) = [user; gist_id]).
  { unfold Str.split. rewrite (split_acc_free "/" user _ "" Hfu).
    change ("/" ++ gist_id) with (String "/" gist_id).
    cbn [Str.split_acc]. change (Ascii.eqb "/" "/") with true. cbv iota.
    fold (Str.rev user). rewrite rev_involutive.
    rewrite <- (append_empty_r gist_id) at 1.
    rewrite (split_acc_free "/" gist_id "" "" Hfi).
    cbn [Str.split_acc]. fold (Str.rev gist_id).
    now rewrite rev_involutive. }
  unfold GistValidator._extract_gist_id.
  rewrite Hparse. cbn [bind]. rewrite String.eqb_refl. cbn [negb].
  rewrite Hstrip, Hsplit. cbn [List.length Nat.ltb Nat.leb nth].
  destruct (Str.match_hex gist_id); reflexivity.
Qed.

Lemma canonical_gist_url_witness :
  GistValidator._extract_gist_id Scenario.L0 (JStr Scenario.url0)
  = if Str.match_hex "0123abcd" then Some "0123abcd" else None.
Proof.
  apply (@canonical_gist_url Scenario.L0 Scenario.url0 "alice" "0123abcd").
  - reflexivity.
  - discriminate.
  - discriminate.
  - reflexivity.
  - reflexivity.
Defined.

(** ** Deployment *)

Lemma all_strings_set (cmd : list (option string)) :
  Forall (fun a => Deploy.is_set a = true) cmd ->
  exists args, Deploy.all_strings cmd = Some args.
Proof.
  induction 1 as [|a r Ha _ (args & IH)]; simpl; [now exists []|].
  destruct a as [s|]; [|discriminate]. rewrite IH. now eexists.
Qed.

(** The variables [deploy_contracts] checks are set when none is
    missing. *)
Lemma required_vars_set (getenv : string -> option string)
  (network var : string) :
  Deploy.missing_vars getenv network = [] ->
  In var (Deploy.required_vars network) ->
  Deploy.is_set (getenv var) = true.
Proof.
  unfold Deploy.missing_vars. intros Hnone Hin.
  destruct (Deploy.is_set (getenv var)) eqn:Hset; [reflexivity|].
  assert (Hmissing : In var (filter (fun v => negb (Deploy.is_set (getenv v)))
                               (Deploy.required_vars network))).
  { apply filter_In. split; [exact Hin|]. now rewrite Hset. }
  rewrite Hnone in Hmissing. contradiction.
Qed.

(** X25. For the networks sepolia and mainnet, [deploy_contracts] gives
    [subprocess.run] nothing but commands whose arguments are all set
    and not empty: it runs nothing when a required variable is missing,
    the build first, and the deployment script only after a build that
    returned 0; it returns only after both returned 0. *)
Theorem deploy_runs_complete_commands
  (getenv : string -> option string) (run : list string -> exn Z)
  (network : string) (verify : bool) :
  network = "sepolia" \/ network = "mainnet" ->
  let r := Deploy.deploy_contracts getenv run network verify in
  Forall (Forall (fun a => Deploy.is_set a = true)) (snd r)
  /\ (Deploy.missing_vars getenv network <> [] -> r = (Raised, []))
  /\ (snd r = []
      \/ snd r = [Deploy.build]
      \/ (snd r = [Deploy.build; Deploy.script getenv network verify]
          /\ Deploy.launch run Deploy.build = Ret 0))
  /\ (fst r = Ret tt ->
      snd r = [Deploy.build; Deploy.script getenv network verify]
      /\ Deploy.launch run Deploy.build = Ret 0
      /\ Deploy.launch run (Deploy.script getenv network verify) = Ret 0).
Proof.
  intros Hnetwork r. unfold r, Deploy.deploy_contracts.
  destruct (Deploy.missing_vars getenv network) as [|var rest] eqn:Hmissing.
  2:{ cbn [fst snd]. split; [constructor|].
      split; [reflexivity|]. split; [now left|discriminate]. }
  assert (Hbuild : Forall (fun a => Deploy.is_set a = true) Deploy.build)
    by (repeat constructor).
  assert (Hscript : Forall (fun a => Deploy.is_set a = true)
                      (Deploy.script getenv network verify)).
  { unfold Deploy.script.
    destruct Hnetwork as [-> | ->]; destruct verify;
      cbv -[Deploy.is_set];
      repeat constructor;
      apply (@required_vars_set getenv _ _ Hmissing);
      simpl; auto. }
  assert (Hnot : ([] : list string) <> [] ->
                 forall x : exn unit * list (list (option string)),
                   x = (Raised, [])).
  { intros H. now elim H. }
  destruct (Deploy.launch run Deploy.build) as [rc|] eqn:Hb.
  2:{ cbn [fst snd]. split; [repeat constructor; exact Hbuild|].
      split; [intros H; now apply Hnot|].
      split; [right; now left|discriminate]. }
  destruct (Z.eqb_spec rc 0) as [->|Hrc]; cbn [negb].
  2:{ cbn [fst snd]. split; [repeat constructor; exact Hbuild|].
      split; [intros H; now apply Hnot|].
      split; [right; now left|discriminate]. }
  destruct (Deploy.launch run (Deploy.script getenv network verify))
    as [rc'|] eqn:Hs.
  2:{ cbn [fst snd].
      split; [repeat (constructor; [assumption|]); constructor|].
      split; [intros H; now apply Hnot|].
      split; [right; right; now split|discriminate]. }
  destruct (Z.eqb_spec rc' 0) as [->|Hrc']; cbn [negb fst snd].
  - split; [repeat (constructor; [assumption|]); constructor|].
    split; [intros H; now apply Hnot|].
    split; [right; right; now split|].
    intros _. repeat split; reflexivity.
  - split; [repeat (constructor; [assumption|]); constructor|].
    split; [intros H; now apply Hnot|].
    split; [right; right; now split|discriminate].
Qed.

Lemma deploy_runs_complete_commands_witness :
  let getenv := fun var =>
                  if String.eqb var "DEPLOY_PRIVATE_KEY" then Some "0xkey"
                  else if String.eqb var "BASE_SEPOLIA_RPC_URL"
                       then Some "https://sepolia.base.org"
                  else if String.eqb var "BASESCAN_SEPOLIA_API_KEY"
                       then Some "KEY"
                  else None in
  let run := fun (_ : list string) => Ret 0 in
  let r := Deploy.deploy_contracts getenv run "sepolia" true in
  r = (Ret tt,
       [Deploy.build;
        [Some "forge"; Some "script";
         Some "src/solidity/script/Deploy.s.sol:DeployScript";
         Some "--rpc-url"; Some "https://sepolia.base.org";
         Some "--private-key"; Some "0xkey"; Some "--broadcast";
         Some "--verify"; Some "--etherscan-api-key"; Some "KEY"]])
  /\ Forall (Forall (fun a => Deploy.is_set a = true)) (snd r)
  /\ (Deploy.missing_vars getenv "sepolia" <> [] -> r = (Raised, []))
  /\ (snd r = []
      \/ snd r = [Deploy.build]
      \/ (snd r = [Deploy.build; Deploy.script getenv "sepolia" true]
          /\ Deploy.launch run Deploy.build = Ret 0))
  /\ (fst r = Ret tt ->
      snd r = [Deploy.build; Deploy.script getenv "sepolia" true]
      /\ Deploy.launch run Deploy.build = Ret 0
      /\ Deploy.launch run (Deploy.script getenv "sepolia" true) = Ret 0).
Proof.
  intros getenv run r. split; [reflexivity|].
  exact (@deploy_runs_complete_commands getenv run "sepolia" true
           (or_introl eq_refl)).
Defined.

(** ** Where events come from *)

Lemma eq_str_true (j : json) (s : string) : eq_str j s = true -> j = JStr s.
Proof.
  destruct j; simpl; try discriminate.
  intros H. apply String.eqb_eq in H. now subst.
Qed.

(** X26. The event source returns events only out of an answer of the
    log query whose [status] is the string 1: they are then the logs of
    its [result] that parse.  An answer with any other status, like a
    query that raised, gives the empty list. *)
Theorem events_need_status_1
  (L : Lib) (addresses : list (string * string))
  (http : request -> nat -> exn json) (api_key network base_url : string)
  (from_block : json) (to_block : Z) (contract_address : option string) :
  let r := Basescan.get_gist_submission_events L addresses http
             api_key network base_url from_block to_block
             contract_address in
  fst r <> [] ->
  exists params response result logs,
    Basescan._make_request L http base_url params = (Ret response, snd r)
    /\ py_get "status" JNull response = Ret (JStr "1")
    /\ py_get "result" (JList []) response = Ret result
    /\ py_iter result = Ret logs
    /\ fst r = Basescan.parse_logs L logs.
Proof.
  intros r. unfold r, Basescan.get_gist_submission_events.
  match goal with
  | |- context [bind ?m _] => destruct m as [address|]
  end; cbn [bind]; [|intros H; now elim H].
  destruct (py_hex from_block) as [fromBlock|]; cbn [bind];
    [|intros H; now elim H].
  match goal with
  | |- context [Basescan._make_request L http base_url ?p] =>
      set (params := p);
      destruct (Basescan._make_request L http base_url params)
        as [response sent] eqn:Hrequest
  end.
  cbn [fst snd].
  destruct response as [response|]; cbn [bind catch];
    [|intros H; now elim H].
  destruct (py_get "status" JNull response) as [status|] eqn:Hstatus;
    cbn [bind catch]; [|intros H; now elim H].
  destruct (eq_str status "1") eqn:Hone; cbn [catch];
    [|intros H; now elim H].
  apply eq_str_true in Hone. subst status.
  destruct (py_get "result" (JList []) response) as [result|] eqn:Hresult;
    cbn [bind catch]; [|intros H; now elim H].
  destruct (py_iter result) as [logs|] eqn:Hlogs; cbn [bind catch];
    [|intros H; now elim H].
  intros _. exists params, response, result, logs.
  repeat split; assumption || reflexivity.
Qed.

Lemma events_need_status_1_witness :
  let r := Basescan.get_gist_submission_events Scenario.L0
             Basescan.source_addresses (Scenario.serving [Scenario.log0])
             "KEY" "sepolia" "https://api-sepolia.basescan.org/api"
             (JNum 100) 105 (Some Scenario.submission0) in
  fst r <> []
  /\ exists params response result logs,
       Basescan._make_request Scenario.L0 (Scenario.serving [Scenario.log0])
         "https://api-sepolia.basescan.org/api" params
       = (Ret response, snd r)
       /\ py_get "status" JNull response = Ret (JStr "1")
       /\ py_get "result" (JList []) response = Ret result
       /\ py_iter result = Ret logs
       /\ fst r = Basescan.parse_logs Scenario.L0 logs.
Proof.
  intros r.
  assert (Hsome : fst r <> []) by discriminate.
  split; [exact Hsome|].
  exact (@events_need_status_1 Scenario.L0 Basescan.source_addresses
           (Scenario.serving [Scenario.log0]) "KEY" "sepolia"
           "https://api-sepolia.basescan.org/api" (JNum 100) 105
           (Some Scenario.submission0) Hsome).
Defined.
